(** * Goalie column normaliser (scripts/swap-team1-goalie-gp-wg.py)

    A shallow embedding of the script's pure functions
    [parse_season_from_filename], [_parse_int_prefix] and
    [swap_goalie_columns_in_rows], followed by the properties the
    specification states about them.

    Modelling conventions.
    - A Python [str] is a [string]; its characters are read as the code
      points U+0000..U+00FF.  On that range the regular-expression class
      [\d] is the ten ASCII digits and [\s] is the set for which
      [str.isspace] holds.
    - A Python [int] is a [Z].
    - A Python list of cells is a [list string]; indexing is stdpp's lookup
      [!!], and an index that is out of range raises instead of being
      ignored.
    - A Python exception is the [Raises] outcome of the monad [py]. *)

From Stdlib Require Import ZArith Ascii String.
From stdpp Require Import base tactics option list.

Open Scope string_scope.
Open Scope list_scope.
Open Scope Z_scope.
Open Scope nat_scope.

(** ** Outcomes of Python code *)

Inductive exc : Type := IndexError | ValueError.

Inductive py (A : Type) : Type :=
| Returns (a : A)
| Raises (e : exc).

Arguments Returns {A} a.
Arguments Raises {A} e.

Definition py_bind {A B : Type} (m : py A) (k : A -> py B) : py B :=
  match m with
  | Returns a => k a
  | Raises e => Raises e
  end.

Notation "'let*' x ':=' m 'in' k" := (py_bind m (fun x => k))
  (at level 10, x pattern, m at level 100, k at level 200).

(** ** Python built-ins used by the script *)

Module Py.

(** [\d] on U+0000..U+00FF. *)
Definition is_digit (c : ascii) : bool :=
  let n := nat_of_ascii c in (48 <=? n) && (n <=? 57).

(** [\s] on U+0000..U+00FF: TAB..CR, FS..US, space, NEL and NBSP. *)
Definition is_space (c : ascii) : bool :=
  let n := nat_of_ascii c in
  ((9 <=? n) && (n <=? 13)) || ((28 <=? n) && (n <=? 32))
  || (n =? 133) || (n =? 160).

Definition digit_value (c : ascii) : Z := Z.of_nat (nat_of_ascii c - 48).

(** [sys.int_info.default_max_str_digits] of CPython 3.11 and later:
    [int] refuses a decimal string of more digits than this with a
    [ValueError]. *)
Definition int_max_str_digits : Z := 4300.

Fixpoint digits_value (acc : Z) (ds : string) : Z :=
  match ds with
  | EmptyString => acc
  | String d ds' => digits_value (10 * acc + digit_value d)%Z ds'
  end.

(** [int(ds)] for a non-empty string [ds] of decimal digits. *)
Definition int (ds : string) : py Z :=
  if (int_max_str_digits <? Z.of_nat (String.length ds))%Z
  then Raises ValueError
  else Returns (digits_value 0%Z ds).

(** [x in row]. *)
Definition contains (x : string) (row : list string) : bool :=
  existsb (String.eqb x) row.

(** [row.index(x)]. *)
Fixpoint index (x : string) (row : list string) : py nat :=
  match row with
  | [] => Raises ValueError
  | c :: row' =>
      if String.eqb c x then Returns 0
      else let* i := index x row' in Returns (S i)
  end.

(** [row[i]]. *)
Definition getitem (row : list string) (i : nat) : py string :=
  match row !! i with
  | Some c => Returns c
  | None => Raises IndexError
  end.

(** [row[i] = v]. *)
Definition setitem (row : list string) (i : nat) (v : string)
  : py (list string) :=
  if i <? length row then Returns (<[i := v]> row) else Raises IndexError.

End Py.

(** ** Regular-expression pieces *)

(** Longest prefix of characters satisfying [p], and the rest. *)
Fixpoint span_chars (p : ascii -> bool) (s : string) : string * string :=
  match s with
  | EmptyString => (EmptyString, EmptyString)
  | String c s' =>
      if p c
      then let '(a, b) := span_chars p s' in (String c a, b)
      else (EmptyString, s)
  end.

(** A literal at the start of [s]; the result is what follows it. *)
Fixpoint literal (lit s : string) : option string :=
  match lit, s with
  | EmptyString, _ => Some s
  | String a lit', String b s' =>
      if Ascii.eqb a b then literal lit' s' else None
  | String _ _, EmptyString => None
  end.

(** [(\d{n})] at the start of [s]: the group and what follows it. *)
Fixpoint digits_exactly (n : nat) (s : string) : option (string * string) :=
  match n with
  | O => Some (EmptyString, s)
  | S n' =>
      match s with
      | String c s' =>
          if Py.is_digit c
          then match digits_exactly n' s' with
               | Some (g, r) => Some (String c g, r)
               | None => None
               end
          else None
      | EmptyString => None
      end
  end.

(** [$] without MULTILINE: the end of the string, or just before a line
    feed that is the last character of the string. *)
Definition at_end (s : string) : bool :=
  match s with
  | EmptyString => true
  | String c EmptyString => Ascii.eqb c "010"%char
  | _ => false
  end.

(** ** File names *)

(** What follows the report alternative in [FILENAME_RE]:
    [-(\d{4})-(\d{4})\.csv$]; the result is group 2. *)
Definition filename_tail (s : string) : option string :=
  match literal "-" s with
  | Some s1 =>
      match digits_exactly 4 s1 with
      | Some (g2, s2) =>
          match literal "-" s2 with
          | Some s3 =>
              match digits_exactly 4 s3 with
              | Some (_, s4) =>
                  match literal ".csv" s4 with
                  | Some s5 => if at_end s5 then Some g2 else None
                  | None => None
                  end
              | None => None
              end
          | None => None
          end
      | None => None
      end
  | None => None
  end.

(** One alternative of group 1 followed by the tail. *)
Definition filename_alt (report s : string) : option (string * string) :=
  match literal report s with
  | Some r =>
      match filename_tail r with
      | Some g2 => Some (report, g2)
      | None => None
      end
  | None => None
  end.

(** [FILENAME_RE.match(filename)]: groups 1 and 2 of the match, the
    alternatives tried from left to right. *)
Definition FILENAME_RE_match (filename : string) : option (string * string) :=
  match filename_alt "regular" filename with
  | Some m => Some m
  | None => filename_alt "playoffs" filename
  end.

Definition parse_season_from_filename (filename : string)
  : py (option (string * Z)) :=
  match FILENAME_RE_match filename with
  | None => Returns None
  | Some (report, g2) =>
      let* season := Py.int g2 in
      Returns (Some (report, season))
  end.

(** ** Leading integer of a cell *)

(** [re.match(r"^\s*(\d+)", value)]: group 1 of the match. *)
Definition int_prefix_match (value : string) : option string :=
  let '(_, rest) := span_chars Py.is_space value in
  let '(ds, _) := span_chars Py.is_digit rest in
  match ds with
  | EmptyString => None
  | _ => Some ds
  end.

Definition _parse_int_prefix (value : string) : py (option Z) :=
  match value with
  | EmptyString => Returns None
  | _ =>
      match int_prefix_match value with
      | None => Returns None
      | Some ds =>
          match Py.int ds with
          | Returns n => Returns (Some n)
          | Raises ValueError => Returns None
          | Raises e => Raises e
          end
      end
  end.

(** ** The row normaliser *)

Abbreviation row := (list string).

(** The loop's local variables other than [out]. *)
Record state : Type := State {
  in_goalies : bool;
  swapped_any : bool;
  gp_idx : option nat;
  wg_idx : option nat;
  did_global_column_swap : bool
}.

Definition initial_state : state :=
  {| in_goalies := false; swapped_any := false;
     gp_idx := None; wg_idx := None;
     did_global_column_swap := false |}.

(** [len(row) == 1 and row[0] == label]. *)
Definition is_marker (label : string) (r : row) : bool :=
  match r with
  | [c] => String.eqb c label
  | _ => false
  end.

(** [row and row[0] == "Pos" and "GP" in row and "W-G" in row]. *)
Definition is_goalie_header (r : row) : bool :=
  match r with
  | [] => false
  | c :: _ => String.eqb c "Pos" && Py.contains "GP" r && Py.contains "W-G" r
  end.

(** [row = row[:]; row[i], row[j] = row[j], row[i]]: the right-hand side
    is read first, then the two targets are stored from left to right. *)
Definition swap_cells (i j : nat) (r : row) : py row :=
  let* a := Py.getitem r j in
  let* b := Py.getitem r i in
  let* r1 := Py.setitem r i a in
  Py.setitem r1 j b.

(** [gp_idx is not None and wg_idx is not None and row and
    max(gp_idx, wg_idx) < len(row)], giving the two indices. *)
Definition covered (st : state) (r : row) : option (nat * nat) :=
  match gp_idx st, wg_idx st with
  | Some gp, Some wg =>
      match r with
      | [] => None
      | _ => if Nat.max gp wg <? length r then Some (gp, wg) else None
      end
  | _, _ => None
  end.

Definition mark_swapped (st : state) : state :=
  {| in_goalies := in_goalies st; swapped_any := true;
     gp_idx := gp_idx st; wg_idx := wg_idx st;
     did_global_column_swap := did_global_column_swap st |}.

(** One iteration of the loop body: the next state and the row appended
    to [out]. *)
Definition step (st : state) (r : row) : py (state * row) :=
  if is_marker "Goalies" r then
    Returns ({| in_goalies := true; swapped_any := swapped_any st;
                gp_idx := None; wg_idx := None;
                did_global_column_swap := did_global_column_swap st |}, r)
  else if is_marker "Skaters" r then
    Returns ({| in_goalies := false; swapped_any := swapped_any st;
                gp_idx := None; wg_idx := None;
                did_global_column_swap := did_global_column_swap st |}, r)
  else if negb (in_goalies st) then
    Returns (st, r)
  else if is_goalie_header r then
    let* gp := Py.index "GP" r in
    let* wg := Py.index "W-G" r in
    if wg <? gp then
      let* r' := swap_cells gp wg r in
      Returns ({| in_goalies := in_goalies st; swapped_any := true;
                  gp_idx := Some wg; wg_idx := Some gp;
                  did_global_column_swap := true |}, r')
    else
      Returns ({| in_goalies := in_goalies st; swapped_any := swapped_any st;
                  gp_idx := Some gp; wg_idx := Some wg;
                  did_global_column_swap := did_global_column_swap st |}, r)
  else
    match covered st r with
    | Some (gp, wg) =>
        if did_global_column_swap st then
          let* r' := swap_cells gp wg r in
          Returns (mark_swapped st, r')
        else
          let* gp_cell := Py.getitem r gp in
          let* gp_val := _parse_int_prefix gp_cell in
          let* wg_cell := Py.getitem r wg in
          let* wg_val := _parse_int_prefix wg_cell in
          match gp_val, wg_val with
          | Some g, Some w =>
              if (g <? w)%Z then
                let* r' := swap_cells gp wg r in
                Returns (mark_swapped st, r')
              else Returns (st, r)
          | _, _ => Returns (st, r)
          end
    | None => Returns (st, r)
    end.

(** The [for] loop, from state [st] with [out] already holding [acc]. *)
Fixpoint run (st : state) (acc : list row) (rows : list row)
  : py (state * list row) :=
  match rows with
  | [] => Returns (st, acc)
  | r :: rows' =>
      let* (st', r') := step st r in
      run st' (acc ++ [r']) rows'
  end.

Definition swap_goalie_columns_in_rows (rows : list row)
  : py (list row * bool) :=
  let* (st, out) := run initial_state [] rows in
  Returns (out, swapped_any st).

(** ** The values the Python code returns

    None of the index operations above can raise where the script uses
    them.  The definitions of this part give the returned values as
    total functions; [step_returns] and [run_returns] show that the
    monadic code returns exactly these. *)

Definition value_or {A : Type} (d : A) (m : py A) : A :=
  match m with
  | Returns a => a
  | Raises _ => d
  end.

(** The position [row.index(x)] returns. *)
Definition position (x : string) (r : row) : nat := value_or 0 (Py.index x r).

(** The integer [_parse_int_prefix] returns, if any. *)
Definition leading_int (value : string) : option Z :=
  value_or None (_parse_int_prefix value).

(** The row with the cells at [i] and [j] exchanged. *)
Definition exchange (i j : nat) (r : row) : row :=
  match r !! i, r !! j with
  | Some a, Some b => <[j := a]> (<[i := b]> r)
  | _, _ => r
  end.

(** Both cells have a leading integer and the one at [wg] is larger. *)
Definition inverted (gp wg : nat) (r : row) : bool :=
  match r !! gp, r !! wg with
  | Some a, Some b =>
      match leading_int a, leading_int b with
      | Some g, Some w => (g <? w)%Z
      | _, _ => false
      end
  | _, _ => false
  end.

Definition step_value (st : state) (r : row) : state * row :=
  if is_marker "Goalies" r then
    ({| in_goalies := true; swapped_any := swapped_any st;
        gp_idx := None; wg_idx := None;
        did_global_column_swap := did_global_column_swap st |}, r)
  else if is_marker "Skaters" r then
    ({| in_goalies := false; swapped_any := swapped_any st;
        gp_idx := None; wg_idx := None;
        did_global_column_swap := did_global_column_swap st |}, r)
  else if negb (in_goalies st) then (st, r)
  else if is_goalie_header r then
    let gp := position "GP" r in
    let wg := position "W-G" r in
    if wg <? gp then
      ({| in_goalies := in_goalies st; swapped_any := true;
          gp_idx := Some wg; wg_idx := Some gp;
          did_global_column_swap := true |}, exchange gp wg r)
    else
      ({| in_goalies := in_goalies st; swapped_any := swapped_any st;
          gp_idx := Some gp; wg_idx := Some wg;
          did_global_column_swap := did_global_column_swap st |}, r)
  else
    match covered st r with
    | Some (gp, wg) =>
        if did_global_column_swap st || inverted gp wg r
        then (mark_swapped st, exchange gp wg r)
        else (st, r)
    | None => (st, r)
    end.

(** The state after the loop has consumed [rows]. *)
Definition state_after (st : state) (rows : list row) : state :=
  fold_left (fun s r => (step_value s r).1) rows st.

(** The rows the loop appends to [out] while it consumes [rows]. *)
Fixpoint emitted (st : state) (rows : list row) : list row :=
  match rows with
  | [] => []
  | r :: rows' => (step_value st r).2 :: emitted (step_value st r).1 rows'
  end.

(** ** Notions used to state the properties *)

(** A single-cell ["Goalies"] or ["Skaters"] row. *)
Definition is_section_marker (r : row) : bool :=
  is_marker "Goalies" r || is_marker "Skaters" r.

(** A goalie header that lists ["W-G"] before ["GP"]. *)
Definition is_reversed_header (r : row) : bool :=
  is_goalie_header r && (position "W-G" r <? position "GP" r).

(** The most recent goalie header among [sec]. *)
Definition last_header (sec : list row) : option row :=
  last (List.filter is_goalie_header sec).

(** Row [i] lies after a ["Goalies"] marker with no ["Skaters"] marker in
    between. *)
Definition in_goalies_span (rows : list row) (i : nat) : Prop :=
  exists j, j < i /\ rows !! j = Some ["Goalies"] /\
    forall k, j < k < i -> rows !! k <> Some ["Skaters"].

(** The data row [r] as the global swap leaves it under header [h]: the
    cells at the two label positions of [h] exchanged, when [r] is long
    enough to have both. *)
Definition columns_swapped (h r : row) : row :=
  let i := position "GP" h in
  let j := position "W-G" h in
  if Nat.max i j <? length r then exchange i j r else r.

(** Every character of [s] is a decimal digit. *)
Fixpoint all_digits (s : string) : bool :=
  match s with
  | EmptyString => true
  | String c s' => Py.is_digit c && all_digits s'
  end.

(** Four decimal digits. *)
Definition is_year (s : string) : bool :=
  (String.length s =? 4) && all_digits s.

(** The one-character string U+000A. *)
Definition line_feed : string := String "010"%char EmptyString.

(** The state [st] with the changed flag down: what a second run carries
    where a first run carried [st]. *)
Definition quiet (st : state) : state :=
  {| in_goalies := in_goalies st; swapped_any := false;
     gp_idx := gp_idx st; wg_idx := wg_idx st;
     did_global_column_swap := did_global_column_swap st |}.

(** An index that is set lies after the first cell. *)
Definition indices_positive (st : state) : Prop :=
  (forall a, gp_idx st = Some a -> 0 < a) /\
  (forall b, wg_idx st = Some b -> 0 < b).

(** Every character of [s] is matched by [\s]. *)
Fixpoint all_space (s : string) : bool :=
  match s with
  | EmptyString => true
  | String c s' => Py.is_space c && all_space s'
  end.

(** [s] does not start with a decimal digit. *)
Definition no_leading_digit (s : string) : bool :=
  match s with
  | EmptyString => true
  | String c _ => negb (Py.is_digit c)
  end.

(** ** The loop of [main]

    The directory is a list of files in the order [sorted(glob("*.csv"))]
    visits them, each with its name and the rows [read_csv_rows] gives for
    it; [write_csv_rows] is recorded as an entry of [written].  The CSV
    codec and the file system themselves are not modelled. *)

Definition SEASON_MIN : Z := 2012.
Definition SEASON_MAX : Z := 2024.
Definition REPORTS : list string := ["regular"; "playoffs"].

(** The counters of [main] and the writes done so far. *)
Record tally : Type := Tally {
  changed : nat;
  checked : nat;
  written : list (string * list row)
}.

(** One iteration of the loop of [main] on the file [name] holding
    [rows]. *)
Definition main_step (t : tally) (name : string) (rows : list row)
  : py tally :=
  let* parsed := parse_season_from_filename name in
  match parsed with
  | None => Returns t
  | Some (report, season) =>
      if negb (Py.contains report REPORTS) then Returns t
      else if negb ((SEASON_MIN <=? season)%Z && (season <=? SEASON_MAX)%Z)
      then Returns t
      else
        let* (updated, swapped) := swap_goalie_columns_in_rows rows in
        if swapped : bool then
          Returns {| changed := changed t + 1; checked := checked t + 1;
                     written := written t ++ [(name, updated)] |}
        else
          Returns {| changed := changed t; checked := checked t + 1;
                     written := written t |}
  end.

Fixpoint main_loop (t : tally) (files : list (string * list row))
  : py tally :=
  match files with
  | [] => Returns t
  | (name, rows) :: files' =>
      let* t' := main_step t name rows in
      main_loop t' files'
  end.

(** The file names [main] goes on to read: the name parses and the season
    lies between [SEASON_MIN] and [SEASON_MAX]. *)
Definition candidate (name : string) : bool :=
  match parse_season_from_filename name with
  | Returns (Some (_, season)) =>
      (SEASON_MIN <=? season)%Z && (season <=? SEASON_MAX)%Z
  | _ => false
  end.

(** The writes a directory calls for, in order: each candidate file whose
    rows the normaliser changes, with the rows it returns. *)
Definition rewrites (files : list (string * list row))
  : list (string * list row) :=
  flat_map
    (fun f =>
       if candidate f.1 then
         match swap_goalie_columns_in_rows f.2 with
         | Returns (updated, true) => [(f.1, updated)]
         | _ => []
         end
       else [])
    files.

(** The tally [main] starts from. *)
Definition empty_tally : tally :=
  {| changed := 0; checked := 0; written := [] |}.

(** The last character of [s], if it has one. *)
Fixpoint last_char (s : string) : option ascii :=
  match s with
  | EmptyString => None
  | String c s' =>
      match s' with
      | EmptyString => Some c
      | String _ _ => last_char s'
      end
  end.

(** ** Basic facts *)

Section Basics.

Implicit Types (r : row) (st : state) (x c : string) (i j k : nat).

Lemma contains_position x r :
  Py.contains x r = true ->
  Py.index x r = Returns (position x r) /\
  r !! position x r = Some x /\
  (forall k, k < position x r -> r !! k <> Some x).
Proof.
  unfold position. induction r as [|c r IH]; simpl; [discriminate|].
  intros H. rewrite String.eqb_sym in H.
  destruct (String.eqb c x) eqn:E; simpl.
  - apply String.eqb_eq in E. subst c.
    split; [reflexivity|]. split; [reflexivity|]. intros k Hk; lia.
  - simpl in H. destruct (IH H) as (Hi & Hl & Hf).
    rewrite Hi. simpl. rewrite Hi in Hl, Hf. simpl in Hl, Hf.
    split; [reflexivity|]. split; [exact Hl|].
    intros [|k] Hk; simpl.
    + intros [= ->]. rewrite String.eqb_refl in E. discriminate.
    + apply Hf. lia.
Qed.

Lemma position_lt x r : Py.contains x r = true -> position x r < length r.
Proof.
  intros H. destruct (contains_position x r H) as (_ & Hl & _).
  eapply lookup_lt_Some; eauto.
Qed.

Lemma swap_cells_returns i j r :
  i < length r -> j < length r ->
  swap_cells i j r = Returns (exchange i j r).
Proof.
  intros Hi Hj. unfold swap_cells, exchange, Py.getitem, Py.setitem.
  destruct (lookup_lt_is_Some_2 r i Hi) as [a Ha].
  destruct (lookup_lt_is_Some_2 r j Hj) as [b Hb].
  rewrite Ha, Hb. simpl.
  destruct (Nat.ltb_spec i (length r)); [|lia]. simpl.
  rewrite length_insert.
  destruct (Nat.ltb_spec j (length r)); [|lia]. reflexivity.
Qed.

Lemma exchange_length i j r : length (exchange i j r) = length r.
Proof.
  unfold exchange. destruct (r !! i), (r !! j); try reflexivity.
  now rewrite !length_insert.
Qed.

Lemma exchange_lookup_l i j r a b :
  r !! i = Some a -> r !! j = Some b -> exchange i j r !! i = Some b.
Proof.
  intros Ha Hb. unfold exchange. rewrite Ha, Hb.
  pose proof (lookup_lt_Some _ _ _ Ha). pose proof (lookup_lt_Some _ _ _ Hb).
  destruct (decide (i = j)) as [->|Hne].
  - rewrite list_lookup_insert_eq by (now rewrite length_insert). congruence.
  - rewrite list_lookup_insert_ne by congruence.
    now rewrite list_lookup_insert_eq.
Qed.

Lemma exchange_lookup_r i j r a b :
  r !! i = Some a -> r !! j = Some b -> exchange i j r !! j = Some a.
Proof.
  intros Ha Hb. unfold exchange. rewrite Ha, Hb.
  pose proof (lookup_lt_Some _ _ _ Hb).
  rewrite list_lookup_insert_eq by (now rewrite length_insert). reflexivity.
Qed.

Lemma exchange_lookup_other i j k r :
  k <> i -> k <> j -> exchange i j r !! k = r !! k.
Proof.
  intros Hi Hj. unfold exchange. destruct (r !! i), (r !! j); try reflexivity.
  rewrite !list_lookup_insert_ne by congruence. reflexivity.
Qed.

Lemma exchange_comm i j r : exchange i j r = exchange j i r.
Proof.
  apply list_eq. intros k.
  destruct (r !! i) as [a|] eqn:Ha, (r !! j) as [b|] eqn:Hb;
    try (unfold exchange; rewrite Ha, Hb; reflexivity).
  destruct (decide (k = i)) as [->|Hki].
  { rewrite (exchange_lookup_l i j r a b), (exchange_lookup_r j i r b a);
      auto. }
  destruct (decide (k = j)) as [->|Hkj].
  { rewrite (exchange_lookup_r i j r a b), (exchange_lookup_l j i r b a);
      auto. }
  rewrite !exchange_lookup_other; auto.
Qed.

Lemma _parse_int_prefix_returns value :
  _parse_int_prefix value = Returns (leading_int value).
Proof.
  unfold leading_int, _parse_int_prefix.
  destruct value; [reflexivity|].
  destruct (int_prefix_match _); [|reflexivity].
  unfold Py.int. destruct (_ <? _)%Z; reflexivity.
Qed.

Lemma covered_Some st r gp wg :
  covered st r = Some (gp, wg) ->
  gp_idx st = Some gp /\ wg_idx st = Some wg /\
  gp < length r /\ wg < length r.
Proof.
  unfold covered. destruct (gp_idx st), (wg_idx st); try discriminate.
  destruct r as [|c r]; [discriminate|].
  destruct (Nat.ltb_spec (Nat.max n n0) (length (c :: r))); [|discriminate].
  intros [= -> ->]. repeat split; lia.
Qed.

Lemma is_goalie_header_contains r :
  is_goalie_header r = true ->
  r !! 0 = Some "Pos" /\
  Py.contains "GP" r = true /\ Py.contains "W-G" r = true.
Proof.
  unfold is_goalie_header. destruct r as [|c r]; [discriminate|].
  intros H. apply andb_prop in H as [H Hw]. apply andb_prop in H as [Hp Hg].
  apply String.eqb_eq in Hp. subst c. auto.
Qed.

(** The loop body never raises, and returns [step_value]. *)
Lemma step_returns st r : step st r = Returns (step_value st r).
Proof.
  unfold step, step_value.
  destruct (is_marker "Goalies" r); [reflexivity|].
  destruct (is_marker "Skaters" r); [reflexivity|].
  destruct (negb (in_goalies st)); [reflexivity|].
  destruct (is_goalie_header r) eqn:Hh.
  - destruct (is_goalie_header_contains r Hh) as (_ & Hg & Hw).
    destruct (contains_position _ _ Hg) as (-> & _ & _).
    destruct (contains_position _ _ Hw) as (-> & _ & _). simpl.
    destruct (_ <? _); [|reflexivity].
    rewrite swap_cells_returns by now apply position_lt. reflexivity.
  - destruct (covered st r) as [[gp wg]|] eqn:Hc; [|reflexivity].
    destruct (covered_Some _ _ _ _ Hc) as (_ & _ & Hgp & Hwg).
    destruct (did_global_column_swap st); simpl.
    { now rewrite swap_cells_returns. }
    unfold inverted, Py.getitem.
    destruct (lookup_lt_is_Some_2 r gp Hgp) as [a ->].
    destruct (lookup_lt_is_Some_2 r wg Hwg) as [b ->]. simpl.
    rewrite !_parse_int_prefix_returns. simpl.
    destruct (leading_int a), (leading_int b); try reflexivity.
    destruct (_ <? _)%Z; [|reflexivity].
    now rewrite swap_cells_returns.
Qed.

Lemma run_returns st acc rows :
  run st acc rows = Returns (state_after st rows, acc ++ emitted st rows).
Proof.
  revert st acc. induction rows as [|r rows IH]; intros st acc; simpl.
  - now rewrite app_nil_r.
  - rewrite step_returns. simpl. destruct (step_value st r) as [st' r'] eqn:E.
    simpl. rewrite IH. now rewrite <- app_assoc.
Qed.

(** The normaliser never raises. *)
Lemma swap_goalie_columns_in_rows_returns rows :
  swap_goalie_columns_in_rows rows =
  Returns (emitted initial_state rows,
           swapped_any (state_after initial_state rows)).
Proof. unfold swap_goalie_columns_in_rows. now rewrite run_returns. Qed.

End Basics.

(** ** The loop as a whole *)

Section Loop.

Implicit Types (r : row) (st : state) (rows pre post : list row).

Lemma state_after_app st pre post :
  state_after st (pre ++ post) = state_after (state_after st pre) post.
Proof. unfold state_after. apply fold_left_app. Qed.

Lemma state_after_cons st r rows :
  state_after st (r :: rows) = state_after (step_value st r).1 rows.
Proof. reflexivity. Qed.

Lemma state_after_snoc st pre r :
  state_after st (pre ++ [r]) = (step_value (state_after st pre) r).1.
Proof. now rewrite state_after_app. Qed.

Lemma emitted_length st rows : length (emitted st rows) = length rows.
Proof.
  revert st. induction rows as [|r rows IH]; intros st; simpl; [|rewrite IH];
    reflexivity.
Qed.

Lemma emitted_app st pre post :
  emitted st (pre ++ post) =
  emitted st pre ++ emitted (state_after st pre) post.
Proof.
  revert st. induction pre as [|r pre IH]; intros st; simpl; [reflexivity|].
  now rewrite IH.
Qed.

(** The row emitted at a position is the loop body's answer in the state
    reached after the rows before it. *)
Lemma emitted_middle st pre r post :
  emitted st (pre ++ r :: post) !! length pre =
  Some (step_value (state_after st pre) r).2.
Proof.
  rewrite emitted_app. rewrite lookup_app_r by (rewrite emitted_length; lia).
  rewrite emitted_length, Nat.sub_diag. reflexivity.
Qed.

Lemma emitted_lookup st rows i r :
  rows !! i = Some r ->
  emitted st rows !! i = Some (step_value (state_after st (take i rows)) r).2.
Proof.
  intros H. pose proof (lookup_lt_Some _ _ _ H) as Hlt.
  rewrite <- (take_drop_middle rows i r H) at 1.
  replace i with (length (take i rows)) at 1
    by (rewrite length_take; lia).
  apply emitted_middle.
Qed.

End Loop.

(** ** The changed flag *)

Section Flag.

Implicit Types (r : row) (st : state) (rows : list row).

Lemma exchange_differs i j r a b :
  r !! i = Some a -> r !! j = Some b -> a <> b -> exchange i j r <> r.
Proof.
  intros Ha Hb Hab E.
  pose proof (exchange_lookup_l i j r a b Ha Hb) as H.
  rewrite E in H. congruence.
Qed.

Lemma header_positions r :
  is_goalie_header r = true ->
  r !! position "GP" r = Some "GP" /\ r !! position "W-G" r = Some "W-G" /\
  position "GP" r <> position "W-G" r.
Proof.
  intros H. destruct (is_goalie_header_contains r H) as (_ & Hg & Hw).
  destruct (contains_position _ _ Hg) as (_ & Hgl & _).
  destruct (contains_position _ _ Hw) as (_ & Hwl & _).
  split; [exact Hgl|]. split; [exact Hwl|].
  intros E. rewrite E in Hgl. congruence.
Qed.

Lemma inverted_cells gp wg r :
  inverted gp wg r = true ->
  exists a b, r !! gp = Some a /\ r !! wg = Some b /\ a <> b.
Proof.
  unfold inverted. destruct (r !! gp) as [a|]; [|discriminate].
  destruct (r !! wg) as [b|]; [|discriminate].
  destruct (leading_int a) as [g|] eqn:Ea; [|discriminate].
  destruct (leading_int b) as [w|] eqn:Eb; [|discriminate].
  intros H. exists a, b. split; [reflexivity|]. split; [reflexivity|].
  intros ->. rewrite Ea in Eb. injection Eb as ->.
  apply Z.ltb_lt in H. lia.
Qed.

(** The flag is raised by an iteration exactly when the iteration emits a
    row that differs; a global swap is only ever active with the flag up. *)
Lemma step_flag st r :
  (did_global_column_swap st = true -> swapped_any st = true) ->
  (did_global_column_swap (step_value st r).1 = true ->
   swapped_any (step_value st r).1 = true) /\
  (swapped_any (step_value st r).1 = true <->
   swapped_any st = true \/ (step_value st r).2 <> r).
Proof.
  intros Hinv. unfold step_value.
  destruct (is_marker "Goalies" r); [simpl; tauto|].
  destruct (is_marker "Skaters" r); [simpl; tauto|].
  destruct (negb (in_goalies st)); [simpl; tauto|].
  destruct (is_goalie_header r) eqn:Hh.
  - destruct (header_positions r Hh) as (Hg & Hw & Hne).
    cbv zeta. destruct (_ <? _); simpl; [|tauto].
    split; [auto|]. split; [intros _; right|auto].
    eapply exchange_differs; eauto; discriminate.
  - destruct (covered st r) as [[gp wg]|] eqn:Hc; [|simpl; tauto].
    destruct (did_global_column_swap st) eqn:Hd; simpl.
    { split; [auto|]. split; [intros _; left; auto|auto]. }
    destruct (inverted gp wg r) eqn:Hi; simpl; [|rewrite Hd; tauto].
    split; [rewrite Hd; discriminate|].
    split; [intros _; right|auto].
    destruct (inverted_cells _ _ _ Hi) as (a & b & Ha & Hb & Hab).
    eapply exchange_differs; eauto.
Qed.

Lemma run_flag st rows :
  (did_global_column_swap st = true -> swapped_any st = true) ->
  swapped_any (state_after st rows) = true <->
  swapped_any st = true \/
  exists i r r', rows !! i = Some r /\ emitted st rows !! i = Some r' /\
                 r' <> r.
Proof.
  revert st. induction rows as [|x rows IH]; intros st Hinv.
  - simpl. split; [auto|]. intros [H|(i & r & r' & H & _)]; [exact H|].
    destruct i; discriminate.
  - destruct (step_flag st x Hinv) as [Hinv' Hstep].
    rewrite state_after_cons, (IH _ Hinv'), Hstep. simpl. split.
    + intros [[H|H]|(i & r & r' & Hi & Ho & Hd)].
      * now left.
      * right. exists 0, x, (step_value st x).2. auto.
      * right. exists (S i), r, r'. auto.
    + intros [H|(i & r & r' & Hi & Ho & Hd)]; [now left; left|].
      destruct i as [|i]; simpl in Hi, Ho.
      * injection Hi as <-. injection Ho as <-. left. now right.
      * right. exists i, r, r'. auto.
Qed.

End Flag.

(** C3.  The boolean returned is true exactly when some emitted row
    differs from the input row at the same position (and the call
    returns, with as many rows as it was given). *)
Theorem changed_flag_correct (rows : list row) :
  exists out flag,
    swap_goalie_columns_in_rows rows = Returns (out, flag) /\
    length out = length rows /\
    (flag = true <->
     exists i r r', rows !! i = Some r /\ out !! i = Some r' /\ r' <> r).
Proof.
  eexists _, _. split; [apply swap_goalie_columns_in_rows_returns|].
  split; [apply emitted_length|].
  rewrite run_flag by (simpl; discriminate). simpl. split.
  - intros [H|H]; [discriminate|exact H].
  - intros H. now right.
Qed.

(** ** Sections of the input *)

Section Sections.

Implicit Types (r x : row) (st : state) (rows pre sec : list row).

Lemma is_marker_eq label r : is_marker label r = true <-> r = [label].
Proof.
  unfold is_marker. destruct r as [|c [|d r]]; split; try discriminate.
  - intros H. apply String.eqb_eq in H. now subst.
  - intros [= ->]. apply String.eqb_refl.
Qed.

Lemma is_section_marker_false r :
  is_section_marker r = false ->
  is_marker "Goalies" r = false /\ is_marker "Skaters" r = false.
Proof. unfold is_section_marker. apply orb_false_elim. Qed.

Lemma marker_not_header r :
  is_section_marker r = true -> is_goalie_header r = false.
Proof.
  unfold is_section_marker. intros H. apply orb_prop in H as [H|H];
    apply is_marker_eq in H; subst; reflexivity.
Qed.

(** A marker row is emitted as it is, in any state. *)
Lemma step_marker st r :
  is_section_marker r = true -> (step_value st r).2 = r.
Proof.
  unfold is_section_marker, step_value. intros H.
  destruct (is_marker "Goalies" r); [reflexivity|].
  destruct (is_marker "Skaters" r); [reflexivity|discriminate].
Qed.

(** Outside a goalie section every row is emitted as it is. *)
Lemma step_outside st r :
  in_goalies st = false -> (step_value st r).2 = r.
Proof.
  unfold step_value. intros ->.
  destruct (is_marker "Goalies" r); [reflexivity|].
  destruct (is_marker "Skaters" r); reflexivity.
Qed.

Lemma step_in_goalies st r :
  in_goalies (step_value st r).1 =
  if is_marker "Goalies" r then true
  else if is_marker "Skaters" r then false
  else in_goalies st.
Proof.
  unfold step_value.
  destruct (is_marker "Goalies" r); [reflexivity|].
  destruct (is_marker "Skaters" r); [reflexivity|].
  destruct (in_goalies st) eqn:E; simpl; [|exact E].
  destruct (is_goalie_header r).
  - cbv zeta. destruct (_ <? _); simpl; first [exact E|reflexivity].
  - destruct (covered st r) as [[gp wg]|]; [|exact E].
    destruct (_ || _); simpl; first [exact E|reflexivity].
Qed.

(** What an iteration does on a row that is no marker, inside a section:
    the header case. *)
Lemma step_header st r :
  is_section_marker r = false -> in_goalies st = true ->
  is_goalie_header r = true ->
  step_value st r =
  let gp := position "GP" r in
  let wg := position "W-G" r in
  if wg <? gp then
    ({| in_goalies := true; swapped_any := true;
        gp_idx := Some wg; wg_idx := Some gp;
        did_global_column_swap := true |}, exchange gp wg r)
  else
    ({| in_goalies := true; swapped_any := swapped_any st;
        gp_idx := Some gp; wg_idx := Some wg;
        did_global_column_swap := did_global_column_swap st |}, r).
Proof.
  intros Hm Hin Hh. destruct (is_section_marker_false r Hm) as [Hg Hs].
  unfold step_value. rewrite Hg, Hs, Hin, Hh. reflexivity.
Qed.

(** The data-row case. *)
Lemma step_data st r :
  is_section_marker r = false -> in_goalies st = true ->
  is_goalie_header r = false ->
  step_value st r =
  match covered st r with
  | Some (gp, wg) =>
      if did_global_column_swap st || inverted gp wg r
      then (mark_swapped st, exchange gp wg r)
      else (st, r)
  | None => (st, r)
  end.
Proof.
  intros Hm Hin Hh. destruct (is_section_marker_false r Hm) as [Hg Hs].
  unfold step_value. rewrite Hg, Hs, Hin, Hh. reflexivity.
Qed.

Lemma step_data_state st r :
  is_section_marker r = false -> in_goalies st = true ->
  is_goalie_header r = false ->
  in_goalies (step_value st r).1 = true /\
  gp_idx (step_value st r).1 = gp_idx st /\
  wg_idx (step_value st r).1 = wg_idx st /\
  did_global_column_swap (step_value st r).1 = did_global_column_swap st.
Proof.
  intros Hm Hin Hh. rewrite step_data by assumption.
  destruct (covered st r) as [[gp wg]|]; [|auto].
  destruct (_ || _); simpl; auto.
Qed.

(** Inside a section, the loop has seen a ["Goalies"] marker and no
    ["Skaters"] marker since. *)
Lemma in_goalies_after pre :
  in_goalies (state_after initial_state pre) = true ->
  exists j, pre !! j = Some ["Goalies"] /\
    forall k, j < k -> pre !! k <> Some ["Skaters"].
Proof.
  induction pre as [|x pre IH] using rev_ind; [discriminate|].
  rewrite state_after_snoc, step_in_goalies.
  destruct (is_marker "Goalies" x) eqn:Hg.
  - intros _. apply is_marker_eq in Hg. subst x. exists (length pre). split.
    + now rewrite lookup_app_r, Nat.sub_diag by lia.
    + intros k Hk. rewrite lookup_ge_None_2; [discriminate|].
      rewrite length_app. simpl. lia.
  - destruct (is_marker "Skaters" x) eqn:Hs; [discriminate|].
    intros H. destruct (IH H) as (j & Hj & Hno). exists j. split.
    + rewrite lookup_app_l; [exact Hj|]. eapply lookup_lt_Some; eauto.
    + intros k Hk. destruct (decide (k < length pre)) as [Hlt|Hge].
      * rewrite lookup_app_l by exact Hlt. now apply Hno.
      * rewrite lookup_app_r by lia.
        destruct (k - length pre) as [|n]; simpl; [|now destruct n].
        intros [= ->]. discriminate.
Qed.

Lemma last_header_snoc sec x :
  last_header (sec ++ [x]) =
  if is_goalie_header x then Some x else last_header sec.
Proof.
  unfold last_header. rewrite List.filter_app. simpl.
  destruct (is_goalie_header x).
  - apply last_snoc.
  - now rewrite app_nil_r.
Qed.

Lemma last_header_app_cons sec hdr body :
  is_goalie_header hdr = true ->
  last_header (sec ++ hdr :: body) = last_header (hdr :: body).
Proof.
  intros Hh. induction body as [|x body IH] using rev_ind.
  - rewrite last_header_snoc, Hh.
    change [hdr] with ([] ++ [hdr]). now rewrite last_header_snoc, Hh.
  - replace (sec ++ hdr :: body ++ [x]) with ((sec ++ hdr :: body) ++ [x])
      by now rewrite <- app_assoc.
    change (hdr :: body ++ [x]) with ((hdr :: body) ++ [x]).
    now rewrite !last_header_snoc, IH.
Qed.

(** The state the loop carries through a section [sec] without marker
    rows: still inside, the indices those of the most recent header in
    ascending order, the global swap active once a reversed header has
    been met. *)
Lemma section_state st sec :
  in_goalies st = true ->
  forallb (fun r => negb (is_section_marker r)) sec = true ->
  in_goalies (state_after st sec) = true /\
  did_global_column_swap (state_after st sec) =
    did_global_column_swap st || existsb is_reversed_header sec /\
  match last_header sec with
  | Some h =>
      gp_idx (state_after st sec) =
        Some (Nat.min (position "GP" h) (position "W-G" h)) /\
      wg_idx (state_after st sec) =
        Some (Nat.max (position "GP" h) (position "W-G" h))
  | None =>
      gp_idx (state_after st sec) = gp_idx st /\
      wg_idx (state_after st sec) = wg_idx st
  end.
Proof.
  intros Hin. induction sec as [|x sec IH] using rev_ind; intros Hm.
  - simpl. rewrite orb_false_r. auto.
  - rewrite forallb_app in Hm. simpl in Hm.
    apply andb_prop in Hm as [Hsec Hx]. rewrite andb_true_r in Hx.
    apply negb_true_iff in Hx.
    destruct (IH Hsec) as (Hi & Hd & Hidx).
    rewrite state_after_snoc, last_header_snoc, existsb_app. simpl.
    rewrite orb_false_r. unfold is_reversed_header at 2.
    destruct (is_goalie_header x) eqn:Hh.
    + rewrite step_header by assumption. cbv zeta.
      destruct (Nat.ltb_spec (position "W-G" x) (position "GP" x)); simpl.
      * rewrite !orb_true_r. split; [reflexivity|]. split; [reflexivity|].
        split; f_equal; lia.
      * rewrite orb_false_r. split; [reflexivity|]. split; [exact Hd|].
        split; f_equal; lia.
    + destruct (step_data_state _ x Hx Hi Hh) as (Hi' & Hg' & Hw' & Hd').
      rewrite Hi', Hd', Hg', Hw', orb_false_r. auto.
Qed.

(** The global swap is only ever active after a reversed header. *)
Lemma did_global_after st rows :
  did_global_column_swap (state_after st rows) = true ->
  did_global_column_swap st = true \/
  existsb is_reversed_header rows = true.
Proof.
  induction rows as [|x rows IH] using rev_ind; [now left|].
  rewrite state_after_snoc, existsb_app. simpl. rewrite orb_false_r.
  set (s := state_after st rows) in *.
  unfold step_value, is_reversed_header.
  destruct (is_marker "Goalies" x); [simpl; intros H; rewrite orb_true_iff; tauto|].
  destruct (is_marker "Skaters" x); [simpl; intros H; rewrite orb_true_iff; tauto|].
  destruct (negb (in_goalies s)); [simpl; intros H; rewrite orb_true_iff; tauto|].
  destruct (is_goalie_header x).
  - cbv zeta. destruct (_ <? _); simpl.
    + intros _. right. apply orb_true_r.
    + intros H; rewrite orb_true_iff; tauto.
  - destruct (covered s x) as [[gp wg]|];
      [destruct (_ || _)|]; simpl; intros H; rewrite orb_true_iff; tauto.
Qed.

End Sections.

(** C4.  A row that is not between a ["Goalies"] marker and the next
    ["Skaters"] marker, and any marker row, is emitted unchanged. *)
Theorem rows_outside_goalies_unchanged (rows : list row) (i : nat) (r : row) :
  rows !! i = Some r ->
  ~ in_goalies_span rows i \/ is_section_marker r = true ->
  exists out flag,
    swap_goalie_columns_in_rows rows = Returns (out, flag) /\
    out !! i = Some r.
Proof.
  intros Hr Hout. eexists _, _.
  split; [apply swap_goalie_columns_in_rows_returns|].
  rewrite (emitted_lookup _ _ _ _ Hr). f_equal.
  destruct Hout as [Hout|Hm]; [|now apply step_marker].
  apply step_outside.
  destruct (in_goalies (state_after initial_state (take i rows))) eqn:E;
    [|reflexivity].
  exfalso. apply Hout.
  destruct (in_goalies_after _ E) as (j & Hj & Hno).
  apply lookup_take_Some in Hj as [Hj Hlt].
  exists j. split; [exact Hlt|]. split; [exact Hj|].
  intros k [Hjk Hki] Hk. apply (Hno k Hjk).
  now rewrite lookup_take_lt.
Qed.

Lemma rows_outside_goalies_unchanged_witness :
  let rows := [["Pos"; "W-G"; "GP"]; ["G"; "9"; "3"]; ["Goalies"];
               ["Pos"; "W-G"; "GP"]; ["Skaters"]; ["D"; "9"; "3"]] in
  rows !! 5 = Some ["D"; "9"; "3"] /\
  (~ in_goalies_span rows 5 \/ is_section_marker ["D"; "9"; "3"] = true) /\
  exists out flag,
    swap_goalie_columns_in_rows rows = Returns (out, flag) /\
    out !! 5 = Some ["D"; "9"; "3"].
Proof.
  intros rows.
  assert (Hout : ~ in_goalies_span rows 5).
  { intros (j & Hj & Hg & Hno).
    assert (j = 2) as ->.
    { do 5 (destruct j as [|j]; [try discriminate Hg; try reflexivity|]).
      lia. }
    apply (Hno 4); [lia|reflexivity]. }
  split; [reflexivity|]. split; [now left|].
  apply (rows_outside_goalies_unchanged rows 5 ["D"; "9"; "3"]);
    [reflexivity|now left].
Defined.

(** ** The frame *)

Section Frame.

Implicit Types (r x : row) (st : state) (rows pre : list row).

Lemma step_outside_state st r :
  is_section_marker r = false -> in_goalies st = false ->
  step_value st r = (st, r).
Proof.
  intros Hm Hin. destruct (is_section_marker_false r Hm) as [Hg Hs].
  unfold step_value. now rewrite Hg, Hs, Hin.
Qed.

(** Whenever both indices are set, they are the label positions of a
    goalie header met earlier, with neither a marker nor another header
    after it; outside a section no index is set. *)
Lemma indices_tracked pre :
  (in_goalies (state_after initial_state pre) = false ->
   gp_idx (state_after initial_state pre) = None) /\
  forall a b,
    gp_idx (state_after initial_state pre) = Some a ->
    wg_idx (state_after initial_state pre) = Some b ->
    exists h hdr,
      pre !! h = Some hdr /\ is_goalie_header hdr = true /\
      a = Nat.min (position "GP" hdr) (position "W-G" hdr) /\
      b = Nat.max (position "GP" hdr) (position "W-G" hdr) /\
      forall k x, h < k -> pre !! k = Some x ->
        is_section_marker x = false /\ is_goalie_header x = false.
Proof.
  induction pre as [|x pre [IH0 IH]] using rev_ind.
  { simpl. split; [reflexivity|discriminate]. }
  rewrite state_after_snoc. set (s := state_after initial_state pre) in *.
  destruct (is_section_marker x) eqn:Hm.
  { unfold is_section_marker in Hm.
    apply orb_prop in Hm as [Hm|Hm]; apply is_marker_eq in Hm; subst x;
      (split; [reflexivity|discriminate]). }
  destruct (in_goalies s) eqn:Hin.
  2:{ rewrite step_outside_state by assumption. simpl.
      split; [intros _; now apply IH0|].
      intros a b Ha. rewrite IH0 in Ha by reflexivity. discriminate. }
  assert (Hlast : (pre ++ [x]) !! length pre = Some x)
    by now rewrite lookup_app_r, Nat.sub_diag by lia.
  destruct (is_goalie_header x) eqn:Hh.
  - rewrite step_header by assumption. cbv zeta.
    assert (Hnone : forall k y, length pre < k ->
              (pre ++ [x]) !! k = Some y ->
              is_section_marker y = false /\ is_goalie_header y = false).
    { intros k y Hk Hy. apply lookup_lt_Some in Hy.
      rewrite length_app in Hy. simpl in Hy. lia. }
    destruct (Nat.ltb_spec (position "W-G" x) (position "GP" x)); simpl;
      (split; [discriminate|]); intros a b [= <-] [= <-];
      exists (length pre), x; repeat (split; [first [assumption|lia]|]);
      exact Hnone.
  - destruct (step_data_state s x Hm Hin Hh) as (Hi' & Hg' & Hw' & _).
    rewrite Hi', Hg', Hw'. split; [discriminate|].
    intros a b Ha Hb. destruct (IH a b Ha Hb) as (h & hdr & Hl & Hhd & -> & -> & Hno).
    exists h, hdr. split; [now apply lookup_app_l_Some|].
    split; [exact Hhd|]. split; [reflexivity|]. split; [reflexivity|].
    intros k y Hk Hy. apply lookup_app_Some in Hy as [Hy|[Hge Hy]].
    + now apply (Hno k).
    + destruct (k - length pre) as [|n]; [|now destruct n].
      injection Hy as <-. auto.
Qed.

Lemma exchange_min_max i j r :
  exchange (Nat.min i j) (Nat.max i j) r = exchange i j r.
Proof.
  destruct (Nat.le_ge_cases i j).
  - now rewrite Nat.min_l, Nat.max_r.
  - rewrite Nat.min_r, Nat.max_l by assumption. apply exchange_comm.
Qed.

End Frame.

(** C8.  The output has the length and order of the input, every emitted
    row has the length of its input row, and an emitted row is either the
    input row or the input row with two cells exchanged: those at the
    positions of ["GP"] and ["W-G"] in the most recent goalie header, which
    is the row itself or an earlier row with neither a marker nor a header
    in between. *)
Theorem frame_property (rows : list row) :
  exists out flag,
    swap_goalie_columns_in_rows rows = Returns (out, flag) /\
    length out = length rows /\
    forall i r, rows !! i = Some r ->
      exists r', out !! i = Some r' /\ length r' = length r /\
        (r' = r \/
         exists h hdr a b,
           h <= i /\ rows !! h = Some hdr /\ is_goalie_header hdr = true /\
           (forall k x, h < k <= i -> rows !! k = Some x ->
              is_section_marker x = false /\ is_goalie_header x = false) /\
           Py.index "GP" hdr = Returns a /\ Py.index "W-G" hdr = Returns b /\
           a < length r /\ b < length r /\ r' = exchange a b r).
Proof.
  eexists _, _. split; [apply swap_goalie_columns_in_rows_returns|].
  split; [apply emitted_length|].
  intros i r Hr. eexists. split; [apply (emitted_lookup _ _ _ _ Hr)|].
  set (s := state_after initial_state (take i rows)).
  destruct (is_section_marker r) eqn:Hm.
  { rewrite step_marker by assumption. auto. }
  destruct (in_goalies s) eqn:Hin.
  2:{ rewrite step_outside by assumption. auto. }
  destruct (is_goalie_header r) eqn:Hh.
  - rewrite step_header by assumption. cbv zeta.
    destruct (_ <? _); simpl; [|auto].
    split; [apply exchange_length|]. right.
    destruct (is_goalie_header_contains r Hh) as (_ & Hg & Hw).
    exists i, r, (position "GP" r), (position "W-G" r).
    split; [lia|]. split; [exact Hr|]. split; [exact Hh|].
    split; [intros k x Hk; lia|].
    split; [apply (contains_position _ _ Hg)|].
    split; [apply (contains_position _ _ Hw)|].
    split; [now apply position_lt|]. split; [now apply position_lt|].
    reflexivity.
  - rewrite step_data by assumption.
    destruct (covered s r) as [[gp wg]|] eqn:Hc; [|auto].
    destruct (_ || _); simpl; [|auto].
    split; [apply exchange_length|]. right.
    destruct (covered_Some _ _ _ _ Hc) as (Hgp & Hwg & Hlg & Hlw).
    destruct (indices_tracked (take i rows)) as [_ Htr].
    destruct (Htr gp wg Hgp Hwg) as (h & hdr & Hl & Hhd & -> & -> & Hno).
    apply lookup_take_Some in Hl as [Hl Hlt].
    destruct (is_goalie_header_contains hdr Hhd) as (_ & Hg & Hw).
    exists h, hdr, (position "GP" hdr), (position "W-G" hdr).
    split; [lia|]. split; [exact Hl|]. split; [exact Hhd|].
    split.
    { intros k x [Hhk Hki] Hx. destruct (decide (k = i)) as [->|Hne].
      - rewrite Hr in Hx. injection Hx as <-. auto.
      - apply (Hno k x Hhk). rewrite lookup_take_lt by lia. exact Hx. }
    split; [apply (contains_position _ _ Hg)|].
    split; [apply (contains_position _ _ Hw)|].
    split; [lia|]. split; [lia|]. apply exchange_min_max.
Qed.

(** ** Rows of a goalie section *)

Section GoalieSection.

Implicit Types (r h : row) (x : string) (st : state).
Implicit Types (rows before sec post : list row).

Lemma index_position x r i : Py.index x r = Returns i -> position x r = i.
Proof. unfold position. now intros ->. Qed.

Lemma lookup_contains x r i : r !! i = Some x -> Py.contains x r = true.
Proof.
  intros H. unfold Py.contains. apply existsb_exists. exists x. split.
  - apply list_elem_of_In, list_elem_of_lookup. eauto.
  - apply String.eqb_refl.
Qed.

(** [row.index(x)] is the first position that holds [x]. *)
Lemma index_first x r i :
  r !! i = Some x -> (forall k, k < i -> r !! k <> Some x) ->
  Py.index x r = Returns i.
Proof.
  intros Hi Hf. pose proof (lookup_contains _ _ _ Hi) as Hc.
  destruct (contains_position _ _ Hc) as (-> & Hp & Hpf). f_equal.
  destruct (Nat.lt_trichotomy (position x r) i) as [H|[H|H]]; [|exact H|].
  - now destruct (Hf _ H).
  - now destruct (Hpf _ H).
Qed.

Lemma covered_indices st r a b :
  gp_idx st = Some a -> wg_idx st = Some b ->
  covered st r = if Nat.max a b <? length r then Some (a, b) else None.
Proof.
  intros Ha Hb. unfold covered. rewrite Ha, Hb.
  destruct r; [|reflexivity]. simpl.
  now destruct (Nat.ltb_spec (Nat.max a b) 0); [lia|].
Qed.

(** The state at a data row [r] of a section and the row emitted for it. *)
Lemma data_row_emitted before sec r post h :
  forallb (fun y => negb (is_section_marker y)) sec = true ->
  last_header sec = Some h ->
  is_section_marker r = false -> is_goalie_header r = false ->
  let st := state_after initial_state (before ++ ["Goalies"] :: sec) in
  let i := position "GP" h in
  let j := position "W-G" h in
  gp_idx st = Some (Nat.min i j) /\ wg_idx st = Some (Nat.max i j) /\
  did_global_column_swap st =
    did_global_column_swap (state_after initial_state before)
    || existsb is_reversed_header sec /\
  emitted initial_state (before ++ ["Goalies"] :: sec ++ r :: post)
    !! (length before + 1 + length sec) =
  Some (if (Nat.max i j <? length r)
           && (did_global_column_swap st
               || inverted (Nat.min i j) (Nat.max i j) r)
        then exchange i j r else r).
Proof.
  intros Hsec Hlast Hm Hh st i j.
  set (s0 := state_after initial_state before).
  set (sG := {| in_goalies := true; swapped_any := swapped_any s0;
                gp_idx := None; wg_idx := None;
                did_global_column_swap := did_global_column_swap s0 |}).
  assert (Hst : st = state_after sG sec).
  { unfold st. now rewrite state_after_app, state_after_cons. }
  destruct (section_state sG sec eq_refl Hsec) as (Hin & Hd & Hidx).
  rewrite Hlast in Hidx. destruct Hidx as [Hgp Hwg].
  rewrite <- Hst in Hin, Hd, Hgp, Hwg.
  split; [exact Hgp|]. split; [exact Hwg|]. split; [exact Hd|].
  replace (before ++ ["Goalies"] :: sec ++ r :: post)
    with ((before ++ ["Goalies"] :: sec) ++ r :: post)
    by now rewrite <- app_assoc.
  replace (length before + 1 + length sec)
    with (length (before ++ ["Goalies"] :: sec))
    by (rewrite length_app; simpl; lia).
  rewrite emitted_middle. fold st. f_equal. subst i j.
  rewrite step_data by assumption.
  rewrite (covered_indices st r _ _ Hgp Hwg).
  rewrite Nat.max_r by lia.
  destruct (_ <? _); [|reflexivity]. simpl.
  destruct (did_global_column_swap st || inverted _ _ r); simpl;
    [|reflexivity].
  now rewrite exchange_min_max.
Qed.

Lemma reversed_header_positions h :
  is_goalie_header h = true ->
  is_reversed_header h = (position "W-G" h <? position "GP" h).
Proof. unfold is_reversed_header. now intros ->. Qed.

End GoalieSection.

Section ListFacts.

Context {A : Type}.
Implicit Types (f : A -> bool) (l : list A).

Lemma forallb_lookup f l k a :
  forallb f l = true -> l !! k = Some a -> f a = true.
Proof.
  intros H Hk. rewrite forallb_forall in H. apply H.
  apply list_elem_of_In, list_elem_of_lookup. eauto.
Qed.

Lemma forallb_take f l k : forallb f l = true -> forallb f (take k l) = true.
Proof.
  intros H. rewrite <- (take_drop k l), forallb_app in H.
  now apply andb_prop in H as [H _].
Qed.

Lemma existsb_false_lookup f l k a :
  existsb f l = false -> l !! k = Some a -> f a = false.
Proof.
  intros H Hk. destruct (f a) eqn:E; [|reflexivity].
  rewrite <- H. symmetry. apply existsb_exists. exists a. split; [|exact E].
  apply list_elem_of_In, list_elem_of_lookup. eauto.
Qed.

End ListFacts.

Lemma header_not_marker (r : row) :
  is_goalie_header r = true -> is_section_marker r = false.
Proof.
  intros H. destruct (is_section_marker r) eqn:E; [|reflexivity].
  apply marker_not_header in E. congruence.
Qed.

(** The labels of a reversed header after the exchange: ["GP"] is first
    met where ["W-G"] was, and ["W-G"] only after it. *)
Lemma exchanged_header_labels (hdr : row) (gp wg : nat) :
  is_goalie_header hdr = true ->
  Py.index "GP" hdr = Returns gp -> Py.index "W-G" hdr = Returns wg ->
  wg < gp ->
  Py.index "GP" (exchange gp wg hdr) = Returns wg /\
  exists w, Py.index "W-G" (exchange gp wg hdr) = Returns w /\ wg < w.
Proof.
  intros Hh Hgp Hwg Hlt.
  destruct (is_goalie_header_contains hdr Hh) as (_ & Hg & Hw).
  destruct (contains_position _ _ Hg) as (_ & Hgl & Hgf).
  destruct (contains_position _ _ Hw) as (_ & Hwl & Hwf).
  rewrite (index_position _ _ _ Hgp) in Hgl, Hgf.
  rewrite (index_position _ _ _ Hwg) in Hwl, Hwf.
  pose proof (exchange_lookup_l gp wg hdr _ _ Hgl Hwl) as Hatgp.
  pose proof (exchange_lookup_r gp wg hdr _ _ Hgl Hwl) as Hatwg.
  split.
  - apply index_first; [exact Hatwg|].
    intros k Hk. rewrite exchange_lookup_other by lia. apply Hgf. lia.
  - pose proof (lookup_contains _ _ _ Hatgp) as Hc.
    destruct (contains_position _ _ Hc) as (Hi & Hl & _).
    exists (position "W-G" (exchange gp wg hdr)). split; [exact Hi|].
    set (w := position "W-G" (exchange gp wg hdr)) in *.
    destruct (Nat.lt_trichotomy w wg) as [H|[H|H]]; [| |exact H].
    + rewrite exchange_lookup_other in Hl by lia. now destruct (Hwf _ H).
    + rewrite H in Hl. congruence.
Qed.

(** C5.  In a goalie section whose header [hdr] lists ["W-G"] before
    ["GP"], the header is emitted with the two labels exchanged, so that
    ["GP"] comes first, and every later data row of the section ([body]
    runs up to the next marker row or the end of the input) is emitted with
    the cells at the two tracked positions, those of the most recent
    header, exchanged when the row is long enough to have both. *)
Theorem reversed_header_section_swapped
    (before mid : list row) (hdr : row) (body post : list row) (gp wg : nat) :
  forallb (fun x => negb (is_section_marker x)) mid = true ->
  forallb (fun x => negb (is_section_marker x)) body = true ->
  is_goalie_header hdr = true ->
  Py.index "GP" hdr = Returns gp -> Py.index "W-G" hdr = Returns wg ->
  wg < gp ->
  exists out flag,
    swap_goalie_columns_in_rows
      (before ++ ["Goalies"] :: mid ++ hdr :: body ++ post)
    = Returns (out, flag) /\
    out !! (length before + 1 + length mid) = Some (exchange gp wg hdr) /\
    Py.index "GP" (exchange gp wg hdr) = Returns wg /\
    (exists w, Py.index "W-G" (exchange gp wg hdr) = Returns w /\ wg < w) /\
    forall k r h,
      body !! k = Some r -> is_goalie_header r = false ->
      last_header (hdr :: take k body) = Some h ->
      out !! (length before + 1 + length mid + 1 + k)
      = Some (columns_swapped h r).
Proof.
  intros Hmid Hbody Hh Hgp Hwg Hlt. eexists _, _.
  split; [apply swap_goalie_columns_in_rows_returns|].
  pose proof (header_not_marker hdr Hh) as Hhm.
  split; [|split; [|split]].
  - replace (before ++ ["Goalies"] :: mid ++ hdr :: body ++ post)
      with ((before ++ ["Goalies"] :: mid) ++ hdr :: body ++ post)
      by now rewrite <- app_assoc.
    replace (length before + 1 + length mid)
      with (length (before ++ ["Goalies"] :: mid))
      by (rewrite length_app; simpl; lia).
    rewrite emitted_middle. f_equal.
    rewrite state_after_app, state_after_cons.
    match goal with |- context [state_after ?s mid] =>
      destruct (section_state s mid eq_refl Hmid) as (Hin & _) end.
    rewrite step_header by assumption. cbv zeta.
    rewrite (index_position _ _ _ Hgp), (index_position _ _ _ Hwg).
    now destruct (Nat.ltb_spec wg gp); [|lia].
  - now apply exchanged_header_labels.
  - now apply exchanged_header_labels.
  - intros k r h Hk Hr Hlast.
    pose proof (lookup_lt_Some _ _ _ Hk) as Hklt.
    assert (Hsec : forallb (fun x => negb (is_section_marker x))
                     (mid ++ hdr :: take k body) = true).
    { rewrite forallb_app. simpl. rewrite Hmid, Hhm. simpl.
      now apply forallb_take. }
    assert (Hrm : is_section_marker r = false).
    { apply negb_true_iff. apply (forallb_lookup _ _ _ _ Hbody Hk). }
    rewrite <- (last_header_app_cons mid) in Hlast by exact Hh.
    destruct (data_row_emitted before (mid ++ hdr :: take k body) r
                (drop (S k) body ++ post) h Hsec Hlast Hrm Hr)
      as (_ & _ & Hd & Hout).
    replace (before ++ ["Goalies"] :: mid ++ hdr :: body ++ post)
      with (before ++ ["Goalies"] :: (mid ++ hdr :: take k body)
              ++ r :: drop (S k) body ++ post).
    2:{ rewrite <- app_assoc. simpl. do 4 f_equal.
        change (take k body ++ r :: drop (S k) body ++ post)
          with (take k body ++ (r :: drop (S k) body) ++ post).
        now rewrite app_assoc, take_drop_middle. }
    replace (length before + 1 + length mid + 1 + k)
      with (length before + 1 + length (mid ++ hdr :: take k body))
      by (rewrite length_app; simpl; rewrite length_take; lia).
    rewrite Hout. f_equal. rewrite Hd.
    assert (Hrev : existsb is_reversed_header (mid ++ hdr :: take k body)
                   = true).
    { rewrite existsb_app. simpl.
      rewrite (reversed_header_positions hdr Hh).
      rewrite (index_position _ _ _ Hgp), (index_position _ _ _ Hwg).
      destruct (Nat.ltb_spec wg gp); [|lia]. simpl. apply orb_true_r. }
    rewrite Hrev, orb_true_r. simpl. rewrite andb_true_r. reflexivity.
Qed.

Lemma reversed_header_section_swapped_witness :
  let before := [["Skaters"]; ["D"; "1"; "2"]] in
  let mid := [[""]] in
  let hdr := ["Pos"; "Player"; "W-G"; "GP"] in
  let body := [["G"; "A"; "18-5-3"; "30"]; ["G"; "B"];
               ["Totals"; ""; "20-6-4"; "40"]] in
  let post := [["Skaters"]; ["D"; "3"; "4"]] in
  forallb (fun x => negb (is_section_marker x)) mid = true /\
  forallb (fun x => negb (is_section_marker x)) body = true /\
  is_goalie_header hdr = true /\
  Py.index "GP" hdr = Returns 3 /\ Py.index "W-G" hdr = Returns 2 /\
  2 < 3 /\
  exists out flag,
    swap_goalie_columns_in_rows
      (before ++ ["Goalies"] :: mid ++ hdr :: body ++ post)
    = Returns (out, flag) /\
    out !! (length before + 1 + length mid) = Some (exchange 3 2 hdr) /\
    Py.index "GP" (exchange 3 2 hdr) = Returns 2 /\
    (exists w, Py.index "W-G" (exchange 3 2 hdr) = Returns w /\ 2 < w) /\
    forall k r h,
      body !! k = Some r -> is_goalie_header r = false ->
      last_header (hdr :: take k body) = Some h ->
      out !! (length before + 1 + length mid + 1 + k)
      = Some (columns_swapped h r).
Proof.
  intros before mid hdr body post.
  do 5 (split; [reflexivity|]). split; [lia|].
  apply (reversed_header_section_swapped before mid hdr body post 3 2);
    [reflexivity|reflexivity|reflexivity|reflexivity|reflexivity|lia].
Defined.

(** C9, as the code has it.  Every goalie header of a section sets the
    indices anew: at a data row [r] the two indices are the label positions
    of the most recent header [h] of the section, in ascending order, and
    the row is emitted with the cells at these positions exchanged or as it
    is. *)
Theorem latest_header_defines_indices
    (before sec : list row) (h r : row) (post : list row) (i j : nat) :
  forallb (fun x => negb (is_section_marker x)) sec = true ->
  last_header sec = Some h ->
  Py.index "GP" h = Returns i -> Py.index "W-G" h = Returns j ->
  is_section_marker r = false -> is_goalie_header r = false ->
  exists st o out flag,
    run initial_state [] (before ++ ["Goalies"] :: sec) = Returns (st, o) /\
    gp_idx st = Some (Nat.min i j) /\ wg_idx st = Some (Nat.max i j) /\
    swap_goalie_columns_in_rows (before ++ ["Goalies"] :: sec ++ r :: post)
    = Returns (out, flag) /\
    out !! (length before + 1 + length sec) =
    Some (if (Nat.max i j <? length r)
             && (did_global_column_swap st
                 || inverted (Nat.min i j) (Nat.max i j) r)
          then exchange i j r else r).
Proof.
  intros Hsec Hlast Hi Hj Hm Hh.
  destruct (data_row_emitted before sec r post h Hsec Hlast Hm Hh)
    as (Hgp & Hwg & _ & Hout).
  rewrite (index_position _ _ _ Hi), (index_position _ _ _ Hj)
    in Hgp, Hwg, Hout.
  eexists _, _, _, _. split; [apply run_returns|].
  split; [exact Hgp|]. split; [exact Hwg|].
  split; [apply swap_goalie_columns_in_rows_returns|]. exact Hout.
Qed.

Lemma latest_header_defines_indices_witness :
  let sec := [["Pos"; "GP"; "W-G"; "X"]; ["G"; "7"; "2"; "0"];
              ["Pos"; "X"; "GP"; "W-G"]] in
  let h := ["Pos"; "X"; "GP"; "W-G"] in
  let r := ["G"; "1"; "5"; "9"] in
  forallb (fun x => negb (is_section_marker x)) sec = true /\
  last_header sec = Some h /\
  Py.index "GP" h = Returns 2 /\ Py.index "W-G" h = Returns 3 /\
  is_section_marker r = false /\ is_goalie_header r = false /\
  exists st o out flag,
    run initial_state [] ([] ++ ["Goalies"] :: sec) = Returns (st, o) /\
    gp_idx st = Some (Nat.min 2 3) /\ wg_idx st = Some (Nat.max 2 3) /\
    swap_goalie_columns_in_rows ([] ++ ["Goalies"] :: sec ++ r :: [])
    = Returns (out, flag) /\
    out !! (length (@nil row) + 1 + length sec) =
    Some (if (Nat.max 2 3 <? length r)
             && (did_global_column_swap st
                 || inverted (Nat.min 2 3) (Nat.max 2 3) r)
          then exchange 2 3 r else r).
Proof.
  intros sec h r. do 6 (split; [reflexivity|]).
  apply (latest_header_defines_indices [] sec h r [] 2 3); reflexivity.
Defined.

(** C9 fails as stated: a second header row in the same section moves
    the indices.  The first header of the section below has its labels at
    positions 1 and 2, yet the data row is emitted with the cells at 2 and
    3 exchanged, which is neither the row itself nor the row with the cells
    at 1 and 2 exchanged. *)
Lemma later_header_changes_indices :
  let first := ["Pos"; "GP"; "W-G"; "X"] in
  let r := ["G"; "1"; "5"; "9"] in
  let rows := [["Goalies"]; first; ["Pos"; "X"; "GP"; "W-G"]; r] in
  is_goalie_header first = true /\
  Py.index "GP" first = Returns 1 /\ Py.index "W-G" first = Returns 2 /\
  exists out flag,
    swap_goalie_columns_in_rows rows = Returns (out, flag) /\
    out !! 3 = Some (exchange 2 3 r) /\
    out !! 3 <> Some r /\ out !! 3 <> Some (exchange 1 2 r).
Proof.
  intros first r rows. do 3 (split; [reflexivity|]).
  eexists _, _. split; [reflexivity|]. split; [reflexivity|].
  split; discriminate.
Qed.

(** ** Rows without numbers *)

Lemma int_prefix_match_None (c : string) :
  int_prefix_match c = None -> leading_int c = None.
Proof.
  unfold leading_int, _parse_int_prefix. intros ->. now destruct c.
Qed.

Lemma inverted_no_int (a b : nat) (r : row) (c : string) :
  r !! a = Some c \/ r !! b = Some c -> leading_int c = None ->
  inverted a b r = false.
Proof.
  unfold inverted. intros [H|H] Hc; rewrite H.
  - rewrite Hc. now destruct (r !! b).
  - destruct (r !! a) as [x|]; [|reflexivity]. rewrite Hc.
    now destruct (leading_int x).
Qed.

(** While the global swap is not active, a data row is exchanged exactly
    when it has both cells and their leading integers are inverted. *)
Lemma canonical_section_row
    (before sec : list row) (h r : row) (post : list row) :
  did_global_column_swap
    (state_after initial_state (before ++ ["Goalies"] :: sec)) = false ->
  forallb (fun x => negb (is_section_marker x)) sec = true ->
  last_header sec = Some h ->
  is_section_marker r = false -> is_goalie_header r = false ->
  emitted initial_state (before ++ ["Goalies"] :: sec ++ r :: post)
    !! (length before + 1 + length sec) =
  Some (if (position "W-G" h <? length r)
           && inverted (position "GP" h) (position "W-G" h) r
        then exchange (position "GP" h) (position "W-G" h) r else r).
Proof.
  intros Hg Hsec Hlast Hm Hh.
  destruct (data_row_emitted before sec r post h Hsec Hlast Hm Hh)
    as (_ & _ & Hd & ->).
  rewrite Hg in Hd. symmetry in Hd. apply orb_false_elim in Hd as [_ Hs].
  rewrite Hg. simpl.
  unfold last_header in Hlast. apply last_Some_elem_of in Hlast.
  apply list_elem_of_In, filter_In in Hlast as [Hin Hhdr].
  apply list_elem_of_In, list_elem_of_lookup in Hin as [k Hk].
  pose proof (existsb_false_lookup _ _ _ _ Hs Hk) as Hcan.
  rewrite (reversed_header_positions h Hhdr) in Hcan.
  apply Nat.ltb_ge in Hcan.
  now rewrite Nat.min_l, Nat.max_r by lia.
Qed.

(** With every goalie header so far canonical, the global swap is not
    active. *)
Lemma canonical_headers_no_global_swap (rows : list row) :
  existsb is_reversed_header rows = false ->
  did_global_column_swap (state_after initial_state rows) = false.
Proof.
  intros H.
  destruct (did_global_column_swap (state_after initial_state rows)) eqn:E;
    [|reflexivity].
  apply did_global_after in E as [E|E]; [discriminate|congruence].
Qed.

(** C7, as the code has it.  While the global swap is not active, a data
    row of a goalie section whose cell at one of the two tracked positions
    is empty or has no leading integer is emitted unchanged; the call
    returns. *)
Theorem non_numeric_row_unchanged
    (before sec : list row) (h r : row) (post : list row) (i j : nat)
    (st : state) (o : list row) :
  run initial_state [] (before ++ ["Goalies"] :: sec) = Returns (st, o) ->
  did_global_column_swap st = false ->
  forallb (fun x => negb (is_section_marker x)) sec = true ->
  last_header sec = Some h ->
  Py.index "GP" h = Returns i -> Py.index "W-G" h = Returns j ->
  is_section_marker r = false -> is_goalie_header r = false ->
  (exists c, (r !! i = Some c \/ r !! j = Some c) /\
             int_prefix_match c = None) ->
  exists out flag,
    swap_goalie_columns_in_rows (before ++ ["Goalies"] :: sec ++ r :: post)
    = Returns (out, flag) /\
    out !! (length before + 1 + length sec) = Some r.
Proof.
  intros Hrun Hg Hsec Hlast Hi Hj Hm Hh (c & Hc & Hnone).
  rewrite run_returns in Hrun. injection Hrun as <- _.
  eexists _, _. split; [apply swap_goalie_columns_in_rows_returns|].
  rewrite (canonical_section_row before sec h r post) by assumption.
  rewrite (index_position _ _ _ Hi), (index_position _ _ _ Hj).
  rewrite (inverted_no_int i j r c Hc (int_prefix_match_None c Hnone)).
  now rewrite andb_false_r.
Qed.

Lemma non_numeric_row_unchanged_witness :
  let before := [["Skaters"]; ["Pos"; "W-G"; "GP"]] in
  let sec := [["Pos"; "Player"; "GP"; "W-G"]; ["G"; "A"; "20"; "25"]] in
  let h := ["Pos"; "Player"; "GP"; "W-G"] in
  let r := ["G"; "B"; "n/a"; "31"] in
  let st := {| in_goalies := true; swapped_any := true;
               gp_idx := Some 2; wg_idx := Some 3;
               did_global_column_swap := false |} in
  let o := [["Skaters"]; ["Pos"; "W-G"; "GP"]; ["Goalies"];
            ["Pos"; "Player"; "GP"; "W-G"]; ["G"; "A"; "25"; "20"]] in
  run initial_state [] (before ++ ["Goalies"] :: sec) = Returns (st, o) /\
  did_global_column_swap st = false /\
  forallb (fun x => negb (is_section_marker x)) sec = true /\
  last_header sec = Some h /\
  Py.index "GP" h = Returns 2 /\ Py.index "W-G" h = Returns 3 /\
  is_section_marker r = false /\ is_goalie_header r = false /\
  (exists c, (r !! 2 = Some c \/ r !! 3 = Some c) /\
             int_prefix_match c = None) /\
  exists out flag,
    swap_goalie_columns_in_rows (before ++ ["Goalies"] :: sec ++ r :: [])
    = Returns (out, flag) /\
    out !! (length before + 1 + length sec) = Some r.
Proof.
  intros before sec h r st o.
  assert (Hc : exists c, (r !! 2 = Some c \/ r !! 3 = Some c) /\
                         int_prefix_match c = None).
  { exists "n/a". split; [now left|reflexivity]. }
  do 8 (split; [reflexivity|]). split; [exact Hc|].
  apply (non_numeric_row_unchanged before sec h r [] 2 3 st o);
    [reflexivity|reflexivity|reflexivity|reflexivity|reflexivity
    |reflexivity|reflexivity|reflexivity|exact Hc].
Defined.

(** C7 fails as stated: under a reversed header the cells of a data row
    are exchanged whatever they hold.  The row below has an empty cell at
    tracked position 1 and is emitted changed. *)
Lemma non_numeric_row_swapped_under_reversed_header :
  let r := ["G"; ""; "7"] in
  let rows := [["Goalies"]; ["Pos"; "W-G"; "GP"]; r] in
  r !! 1 = Some "" /\ int_prefix_match "" = None /\
  exists out flag,
    swap_goalie_columns_in_rows rows = Returns (out, flag) /\
    out !! 2 = Some ["G"; "7"; ""] /\ out !! 2 <> Some r.
Proof.
  intros r rows. do 2 (split; [reflexivity|]).
  eexists _, _. split; [reflexivity|]. split; [reflexivity|discriminate].
Qed.

(** ** Where the code departs from its own description *)

(** C1.  The normaliser is not idempotent: under a reversed header a data
    row whose ["W-G"] cell leads with the larger number is exchanged by the
    global swap, and the per-row rule of the second run, which now meets a
    canonical header, exchanges it back. *)
Theorem second_run_changes_rows_again :
  let rows := [["Goalies"]; ["Pos"; "W-G"; "GP"]; ["G"; "10"; "5"]] in
  exists out1 out2,
    swap_goalie_columns_in_rows rows = Returns (out1, true) /\
    out1 = [["Goalies"]; ["Pos"; "GP"; "W-G"]; ["G"; "5"; "10"]] /\
    swap_goalie_columns_in_rows out1 = Returns (out2, true) /\
    out2 = [["Goalies"]; ["Pos"; "GP"; "W-G"]; ["G"; "10"; "5"]] /\
    out2 <> out1.
Proof.
  intros rows. eexists _, _. split; [reflexivity|]. split; [reflexivity|].
  split; [reflexivity|]. split; [reflexivity|discriminate].
Qed.

(** C2.  The global swap outlives its section: [did_global_column_swap]
    is not reset at a marker row, so the data row of the second section,
    whose own header is canonical and whose numbers are not inverted, is
    exchanged all the same. *)
Theorem global_swap_outlives_section :
  let r := ["G"; "30"; "12"] in
  let rows := [["Goalies"]; ["Pos"; "W-G"; "GP"]; ["G"; "4"; "9"];
               ["Skaters"]; ["Goalies"]; ["Pos"; "GP"; "W-G"]; r] in
  is_reversed_header ["Pos"; "GP"; "W-G"] = false /\
  inverted 1 2 r = false /\
  exists st o out flag,
    run initial_state [] (take 5 rows) = Returns (st, o) /\
    gp_idx st = None /\ wg_idx st = None /\
    did_global_column_swap st = true /\
    swap_goalie_columns_in_rows rows = Returns (out, flag) /\
    out !! 6 = Some ["G"; "12"; "30"].
Proof.
  intros r rows. do 2 (split; [reflexivity|]).
  eexists _, _, _, _. split; [reflexivity|]. simpl.
  do 3 (split; [reflexivity|]). split; reflexivity.
Qed.

(** C6.  Under a canonical header the per-row rule is not always the one
    applied: after an earlier section with a reversed header, the row with
    ["30"] at the ["GP"] position and ["12"] at the ["W-G"] position is
    exchanged although both cells parse and 12 does not exceed 30. *)
Theorem canonical_header_row_swapped_without_inversion :
  let hdr := ["Pos"; "Player"; "GP"; "W-G"] in
  let r := ["G"; "A"; "30"; "12"] in
  let rows := [["Goalies"]; ["Pos"; "Player"; "W-G"; "GP"]; ["Skaters"];
               ["Goalies"]; hdr; r] in
  Py.index "GP" hdr = Returns 2 /\ Py.index "W-G" hdr = Returns 3 /\
  _parse_int_prefix "30" = Returns (Some 30%Z) /\
  _parse_int_prefix "12" = Returns (Some 12%Z) /\
  exists out flag,
    swap_goalie_columns_in_rows rows = Returns (out, flag) /\
    out !! 4 = Some hdr /\
    out !! 5 = Some ["G"; "A"; "12"; "30"].
Proof.
  intros hdr r rows. do 4 (split; [reflexivity|]).
  eexists _, _. split; [reflexivity|]. split; reflexivity.
Qed.

(** In an input with a single goalie section under a canonical header the
    per-row rule is the one applied: the rows of the specification's
    example. *)
Example canonical_header_example :
  swap_goalie_columns_in_rows
    [["Skaters"]; ["Pos"; "Player"; "GP"]; ["D"; "A"; "82"]; ["Goalies"];
     ["Pos"; "Player"; "GP"; "W-G"]; ["G"; "B"; "20"; "25"];
     ["G"; "C"; "30"; "12"]; ["G"; "D"; "15"; "18-5-3"];
     ["G"; "E"; "40"; "22-10-8"]]
  = Returns
      ([["Skaters"]; ["Pos"; "Player"; "GP"]; ["D"; "A"; "82"]; ["Goalies"];
        ["Pos"; "Player"; "GP"; "W-G"]; ["G"; "B"; "25"; "20"];
        ["G"; "C"; "30"; "12"]; ["G"; "D"; "18-5-3"; "15"];
        ["G"; "E"; "40"; "22-10-8"]], true).
Proof. reflexivity. Qed.

(** ** The names the file-name pattern accepts *)

Section Filenames.

Implicit Types (s lit g rest : string).

Lemma literal_app lit rest : literal lit (lit ++ rest)%string = Some rest.
Proof.
  induction lit as [|a lit IH]; simpl; [reflexivity|].
  now rewrite Ascii.eqb_refl.
Qed.

Lemma literal_inv lit s rest :
  literal lit s = Some rest -> s = (lit ++ rest)%string.
Proof.
  revert s. induction lit as [|a lit IH]; intros s; simpl.
  - now intros [= ->].
  - destruct s as [|b s]; [discriminate|].
    destruct (Ascii.eqb_spec a b) as [->|]; [|discriminate].
    intros H. now rewrite (IH _ H).
Qed.

Lemma digits_exactly_app g rest :
  all_digits g = true ->
  digits_exactly (String.length g) (g ++ rest)%string = Some (g, rest).
Proof.
  induction g as [|c g IH]; simpl; [reflexivity|].
  intros H. apply andb_prop in H as [-> H]. now rewrite (IH H).
Qed.

Lemma digits_exactly_inv n s g rest :
  digits_exactly n s = Some (g, rest) ->
  s = (g ++ rest)%string /\ String.length g = n /\ all_digits g = true.
Proof.
  revert s g. induction n as [|n IH]; intros s g; simpl.
  - intros [= <- <-]. auto.
  - destruct s as [|c s]; [discriminate|].
    destruct (Py.is_digit c) eqn:Hc; [|discriminate].
    destruct (digits_exactly n s) as [[g' r']|] eqn:E; [|discriminate].
    intros [= <- <-]. destruct (IH _ _ E) as (-> & <- & Hd).
    simpl. rewrite Hc, Hd. auto.
Qed.

Lemma at_end_iff s : at_end s = true <-> s = EmptyString \/ s = line_feed.
Proof.
  unfold at_end, line_feed. destruct s as [|c [|d s]].
  - tauto.
  - destruct (Ascii.eqb_spec c "010"%char) as [->|Hne].
    + tauto.
    + split; [discriminate|]. intros [H|H]; [discriminate|].
      injection H as ->. now destruct Hne.
  - split; [discriminate|]. intros [H|H]; discriminate.
Qed.

Lemma is_year_inv g :
  is_year g = true -> String.length g = 4 /\ all_digits g = true.
Proof.
  unfold is_year. intros H. apply andb_prop in H as [H ?].
  apply Nat.eqb_eq in H. auto.
Qed.

Lemma digits_exactly_year g rest :
  is_year g = true -> digits_exactly 4 (g ++ rest)%string = Some (g, rest).
Proof.
  intros H. apply is_year_inv in H as [L D].
  rewrite <- L. now apply digits_exactly_app.
Qed.

(** The tail of [FILENAME_RE] accepts a dash, four digits, a dash, four
    digits and [.csv], followed by nothing or by one line feed. *)
Lemma filename_tail_iff s g :
  filename_tail s = Some g <->
  exists y tail,
    is_year g = true /\ is_year y = true /\
    (tail = EmptyString \/ tail = line_feed) /\
    s = ("-" ++ g ++ "-" ++ y ++ ".csv" ++ tail)%string.
Proof.
  unfold filename_tail. split.
  - destruct (literal "-" s) as [s1|] eqn:E1; [|discriminate].
    destruct (digits_exactly 4 s1) as [[g2 s2]|] eqn:E2; [|discriminate].
    destruct (literal "-" s2) as [s3|] eqn:E3; [|discriminate].
    destruct (digits_exactly 4 s3) as [[g3 s4]|] eqn:E4; [|discriminate].
    destruct (literal ".csv" s4) as [s5|] eqn:E5; [|discriminate].
    destruct (at_end s5) eqn:E6; [|discriminate].
    intros [= <-].
    apply literal_inv in E1, E3, E5.
    apply digits_exactly_inv in E2 as (E2 & L2 & D2).
    apply digits_exactly_inv in E4 as (E4 & L4 & D4).
    apply at_end_iff in E6.
    exists g3, s5. unfold is_year. rewrite L2, L4, D2, D4.
    split; [reflexivity|]. split; [reflexivity|]. split; [exact E6|].
    now subst.
  - intros (y & tail & Hg & Hy & Ht & ->).
    rewrite literal_app, (digits_exactly_year g _ Hg).
    rewrite literal_app, (digits_exactly_year y _ Hy).
    rewrite literal_app. apply at_end_iff in Ht. now rewrite Ht.
Qed.

Lemma int_year g : is_year g = true -> Py.int g = Returns (Py.digits_value 0 g).
Proof.
  intros H. apply is_year_inv in H as [L _]. unfold Py.int. now rewrite L.
Qed.

End Filenames.

(** X14.  What [parse_season_from_filename] accepts: a report kind, two years
    and [.csv], and after that nothing or one line feed; the season is the
    first year.  On every other name it returns [None], and it never
    raises. *)
Lemma parse_season_from_filename_accepts
    (filename report : string) (season : Z) :
  parse_season_from_filename filename = Returns (Some (report, season)) <->
  exists y1 y2 tail,
    (report = "regular" \/ report = "playoffs") /\
    is_year y1 = true /\ is_year y2 = true /\
    (tail = EmptyString \/ tail = line_feed) /\
    filename = (report ++ "-" ++ y1 ++ "-" ++ y2 ++ ".csv" ++ tail)%string /\
    season = Py.digits_value 0 y1.
Proof.
  unfold parse_season_from_filename, FILENAME_RE_match, filename_alt. split.
  - destruct (literal "regular" filename) as [r1|] eqn:E1.
    + apply literal_inv in E1. subst filename.
      destruct (filename_tail r1) as [g|] eqn:T1.
      * apply filename_tail_iff in T1 as (y & tail & Hg & Hy & Ht & ->).
        rewrite (int_year g Hg). simpl. intros [= <- <-].
        exists g, y, tail. auto 10.
      * simpl. discriminate.
    + destruct (literal "playoffs" filename) as [r2|] eqn:E2;
        [|discriminate].
      apply literal_inv in E2. subst filename.
      destruct (filename_tail r2) as [g|] eqn:T2; [|discriminate].
      apply filename_tail_iff in T2 as (y & tail & Hg & Hy & Ht & ->).
      rewrite (int_year g Hg). simpl. intros [= <- <-].
      exists g, y, tail. auto 10.
  - intros (y1 & y2 & tail & Hrep & H1 & H2 & Ht & -> & ->).
    assert (Htail : filename_tail
                      ("-" ++ y1 ++ "-" ++ y2 ++ ".csv" ++ tail)%string
                    = Some y1).
    { apply filename_tail_iff. exists y2, tail. auto. }
    destruct Hrep as [-> | ->].
    + rewrite literal_app, Htail, (int_year y1 H1). reflexivity.
    + change (literal "regular" ("playoffs" ++ _)%string) with (@None string).
      rewrite literal_app, Htail, (int_year y1 H1). reflexivity.
Qed.

Lemma FILENAME_RE_match_year (filename report g : string) :
  FILENAME_RE_match filename = Some (report, g) -> is_year g = true.
Proof.
  unfold FILENAME_RE_match, filename_alt.
  destruct (literal "regular" filename) as [r1|].
  - destruct (filename_tail r1) as [g1|] eqn:T1.
    + intros [= _ <-]. now apply filename_tail_iff in T1 as (_ & _ & H & _).
    + destruct (literal "playoffs" filename) as [r2|]; [|discriminate].
      destruct (filename_tail r2) as [g2|] eqn:T2; [|discriminate].
      intros [= _ <-]. now apply filename_tail_iff in T2 as (_ & _ & H & _).
  - destruct (literal "playoffs" filename) as [r2|]; [|discriminate].
    destruct (filename_tail r2) as [g2|] eqn:T2; [|discriminate].
    intros [= _ <-]. now apply filename_tail_iff in T2 as (_ & _ & H & _).
Qed.

Lemma parse_season_from_filename_returns (filename : string) :
  exists o, parse_season_from_filename filename = Returns o.
Proof.
  unfold parse_season_from_filename.
  destruct (FILENAME_RE_match filename) as [[report g]|] eqn:E; [|eauto].
  rewrite (int_year g (FILENAME_RE_match_year _ _ _ E)). simpl. eauto.
Qed.

(** C10 fails as stated.  The name below is not of the form
    [<report>-<year>-<year>.csv]: a line feed follows [.csv].  The
    function returns a season for it all the same, because [$] also
    matches just before a final line feed. *)
Theorem filename_with_final_line_feed_accepted :
  let name := ("regular-2014-2015.csv" ++ line_feed)%string in
  parse_season_from_filename name = Returns (Some ("regular", 2014%Z)) /\
  ~ exists report y1 y2,
      (report = "regular" \/ report = "playoffs") /\
      is_year y1 = true /\ is_year y2 = true /\
      name = (report ++ "-" ++ y1 ++ "-" ++ y2 ++ ".csv")%string.
Proof.
  intros name. split; [reflexivity|].
  intros (report & y1 & y2 & Hrep & H1 & H2 & H).
  apply is_year_inv in H1 as [L1 _]. apply is_year_inv in H2 as [L2 _].
  destruct y1 as [|a1 [|a2 [|a3 [|a4 [|a5 y1]]]]]; try discriminate L1.
  destruct y2 as [|b1 [|b2 [|b3 [|b4 [|b5 y2]]]]]; try discriminate L2.
  destruct Hrep as [-> | ->]; discriminate H.
Qed.

(** ** Further properties of the normaliser *)

Section Unchanged.

Implicit Types (r h : row) (st : state) (rows pre post sec : list row).

Lemma step_outside_value st r :
  in_goalies st = false -> is_marker "Goalies" r = false ->
  in_goalies (step_value st r).1 = false /\
  swapped_any (step_value st r).1 = swapped_any st /\
  (step_value st r).2 = r.
Proof.
  intros Hin Hg. unfold step_value. rewrite Hg, Hin.
  destruct (is_marker "Skaters" r); simpl; auto.
Qed.

Lemma run_outside st rows :
  in_goalies st = false ->
  forallb (fun r => negb (is_marker "Goalies" r)) rows = true ->
  emitted st rows = rows /\
  swapped_any (state_after st rows) = swapped_any st.
Proof.
  revert st. induction rows as [|r rows IH]; intros st Hin Hno; [auto|].
  simpl in Hno. apply andb_prop in Hno as [Hr Hrows].
  apply negb_true_iff in Hr.
  destruct (step_outside_value st r Hin Hr) as (Hin' & Hsw & Hrow).
  destruct (IH _ Hin' Hrows) as [He Hs].
  rewrite state_after_cons, Hs, Hsw. cbn [emitted]. rewrite He, Hrow. auto.
Qed.

Lemma step_swapped_any_mono st r :
  swapped_any st = true -> swapped_any (step_value st r).1 = true.
Proof.
  intros H. unfold step_value.
  destruct (is_marker "Goalies" r); [exact H|].
  destruct (is_marker "Skaters" r); [exact H|].
  destruct (negb (in_goalies st)); [exact H|].
  destruct (is_goalie_header r).
  - cbv zeta. destruct (_ <? _); [reflexivity|exact H].
  - destruct (covered st r) as [[gp wg]|]; [|exact H].
    destruct (_ || _); [reflexivity|exact H].
Qed.

Lemma swapped_any_mono st rows :
  swapped_any st = true -> swapped_any (state_after st rows) = true.
Proof.
  revert st. induction rows as [|r rows IH]; intros st H; [exact H|].
  rewrite state_after_cons. apply IH. now apply step_swapped_any_mono.
Qed.

Lemma header_positions_nonzero h :
  is_goalie_header h = true ->
  0 < position "GP" h /\ 0 < position "W-G" h.
Proof.
  intros H. destruct (is_goalie_header_contains h H) as (Hp & _ & _).
  destruct (header_positions h H) as (Hg & Hw & _).
  split.
  - destruct (position "GP" h); [congruence|lia].
  - destruct (position "W-G" h); [congruence|lia].
Qed.

End Unchanged.

(** X6.  Without a ["Goalies"] marker row the output is the input and the flag
    is false, whatever the rows hold. *)
Theorem no_goalies_marker_no_change (rows : list row) :
  forallb (fun r => negb (is_marker "Goalies" r)) rows = true ->
  swap_goalie_columns_in_rows rows = Returns (rows, false).
Proof.
  intros H. rewrite swap_goalie_columns_in_rows_returns.
  destruct (run_outside initial_state rows eq_refl H) as [-> ->].
  reflexivity.
Qed.

Lemma no_goalies_marker_no_change_witness :
  let rows := [["Skaters"]; ["Pos"; "W-G"; "GP"]; ["G"; "25"; "20"]; [];
               ["Goalies"; ""]] in
  forallb (fun r => negb (is_marker "Goalies" r)) rows = true /\
  swap_goalie_columns_in_rows rows = Returns (rows, false).
Proof.
  intros rows. split; [reflexivity|].
  apply (no_goalies_marker_no_change rows). reflexivity.
Defined.

(** X9.  The normaliser works forward only: the rows emitted for a prefix of
    the input do not depend on what follows, and a flag raised on a prefix
    stays raised. *)
Theorem output_of_prefix (pre post : list row) :
  exists out_pre flag_pre out flag,
    swap_goalie_columns_in_rows pre = Returns (out_pre, flag_pre) /\
    swap_goalie_columns_in_rows (pre ++ post) = Returns (out, flag) /\
    take (length pre) out = out_pre /\
    (flag_pre = true -> flag = true).
Proof.
  eexists _, _, _, _.
  split; [apply swap_goalie_columns_in_rows_returns|].
  split; [apply swap_goalie_columns_in_rows_returns|].
  split.
  - rewrite emitted_app. apply take_app_length'. now rewrite emitted_length.
  - rewrite state_after_app. apply swapped_any_mono.
Qed.

(** X7.  Inside a goalie section, a row met before the section's first goalie
    header is emitted unchanged, also when a reversed header of an earlier
    section has left the global swap on: the marker row resets both
    indices. *)
Theorem row_before_header_unchanged
    (before sec : list row) (r : row) (post : list row) :
  forallb (fun x => negb (is_section_marker x)) sec = true ->
  last_header sec = None ->
  is_goalie_header r = false ->
  exists out flag,
    swap_goalie_columns_in_rows (before ++ ["Goalies"] :: sec ++ r :: post)
    = Returns (out, flag) /\
    out !! (length before + 1 + length sec) = Some r.
Proof.
  intros Hsec Hlast Hh. eexists _, _.
  split; [apply swap_goalie_columns_in_rows_returns|].
  replace (before ++ ["Goalies"] :: sec ++ r :: post)
    with ((before ++ ["Goalies"] :: sec) ++ r :: post)
    by now rewrite <- app_assoc.
  replace (length before + 1 + length sec)
    with (length (before ++ ["Goalies"] :: sec))
    by (rewrite length_app; simpl; lia).
  rewrite emitted_middle. f_equal.
  destruct (is_section_marker r) eqn:Hm; [now apply step_marker|].
  rewrite state_after_app, state_after_cons.
  match goal with |- context [state_after ?s sec] =>
    destruct (section_state s sec eq_refl Hsec) as (Hin & _ & Hidx) end.
  rewrite Hlast in Hidx. destruct Hidx as [Hgp _].
  rewrite step_data by assumption.
  unfold covered. rewrite Hgp. reflexivity.
Qed.

Lemma row_before_header_unchanged_witness :
  let before := [["Goalies"]; ["Pos"; "W-G"; "GP"]; ["G"; "3"; "9"];
                 ["Skaters"]] in
  let sec := [["G"; "12"; "30"]; ["Pos"; "Player"]] in
  let r := ["G"; "25"; "20"] in
  forallb (fun x => negb (is_section_marker x)) sec = true /\
  last_header sec = None /\
  is_goalie_header r = false /\
  exists out flag,
    swap_goalie_columns_in_rows (before ++ ["Goalies"] :: sec ++ r :: [])
    = Returns (out, flag) /\
    out !! (length before + 1 + length sec) = Some r.
Proof.
  intros before sec r. do 3 (split; [reflexivity|]).
  apply (row_before_header_unchanged before sec r []); reflexivity.
Defined.

(** X8.  A row of fewer than three cells is emitted unchanged wherever it
    stands: a swap needs two tracked positions, both after the ["Pos"]
    cell. *)
Theorem short_row_unchanged (rows : list row) (i : nat) (r : row) :
  rows !! i = Some r -> length r < 3 ->
  exists out flag,
    swap_goalie_columns_in_rows rows = Returns (out, flag) /\
    out !! i = Some r.
Proof.
  intros Hr Hlen. eexists _, _.
  split; [apply swap_goalie_columns_in_rows_returns|].
  rewrite (emitted_lookup _ _ _ _ Hr). f_equal.
  set (s := state_after initial_state (take i rows)).
  destruct (is_section_marker r) eqn:Hm; [now apply step_marker|].
  destruct (in_goalies s) eqn:Hin; [|now apply step_outside].
  destruct (is_goalie_header r) eqn:Hh.
  - exfalso. destruct (header_positions_nonzero r Hh) as [Hg Hw].
    destruct (header_positions r Hh) as (_ & _ & Hne).
    destruct (is_goalie_header_contains r Hh) as (_ & Cg & Cw).
    pose proof (position_lt _ _ Cg). pose proof (position_lt _ _ Cw). lia.
  - rewrite step_data by assumption.
    destruct (covered s r) as [[gp wg]|] eqn:Hc; [|reflexivity].
    exfalso. destruct (covered_Some _ _ _ _ Hc) as (Hgp & Hwg & Hlg & Hlw).
    destruct (indices_tracked (take i rows)) as [_ Htr].
    destruct (Htr gp wg Hgp Hwg) as (k & hdr & _ & Hhd & -> & -> & _).
    destruct (header_positions_nonzero hdr Hhd) as [Hg Hw].
    destruct (header_positions hdr Hhd) as (_ & _ & Hne). lia.
Qed.

Lemma short_row_unchanged_witness :
  let rows := [["Goalies"]; ["Pos"; "W-G"; "GP"]; ["25"; "20"]] in
  rows !! 2 = Some ["25"; "20"] /\ length ["25"; "20"] < 3 /\
  exists out flag,
    swap_goalie_columns_in_rows rows = Returns (out, flag) /\
    out !! 2 = Some ["25"; "20"].
Proof.
  intros rows. split; [reflexivity|]. split; [simpl; lia|].
  apply (short_row_unchanged rows 2 ["25"; "20"]); [reflexivity|simpl; lia].
Defined.

(** ** A second run *)

Section SecondRun.

Implicit Types (r h : row) (x : string) (st : state) (rows : list row).

Lemma contains_lookup x r :
  Py.contains x r = true <-> exists k, r !! k = Some x.
Proof.
  split.
  - intros H. destruct (contains_position x r H) as (_ & Hl & _). eauto.
  - intros [k Hk]. eapply lookup_contains; eauto.
Qed.

Lemma contains_exchange x i j r :
  Py.contains x (exchange i j r) = Py.contains x r.
Proof.
  destruct (r !! i) as [a|] eqn:Ha; [|unfold exchange; now rewrite Ha].
  destruct (r !! j) as [b|] eqn:Hb; [|unfold exchange; now rewrite Ha, Hb].
  pose proof (exchange_lookup_l i j r a b Ha Hb) as Hi.
  pose proof (exchange_lookup_r i j r a b Ha Hb) as Hj.
  apply eq_true_iff_eq. unfold is_true. rewrite !contains_lookup.
  split; intros [k Hk].
  - destruct (decide (k = i)) as [->|Hki]; [exists j; congruence|].
    destruct (decide (k = j)) as [->|Hkj]; [exists i; congruence|].
    rewrite exchange_lookup_other in Hk by assumption. eauto.
  - destruct (decide (k = i)) as [->|Hki]; [exists j; congruence|].
    destruct (decide (k = j)) as [->|Hkj]; [exists i; congruence|].
    exists k. now rewrite exchange_lookup_other.
Qed.

Lemma is_goalie_header_iff r :
  is_goalie_header r = true <->
  r !! 0 = Some "Pos" /\
  Py.contains "GP" r = true /\ Py.contains "W-G" r = true.
Proof.
  split; [apply is_goalie_header_contains|].
  intros (Hp & Hg & Hw). unfold is_goalie_header.
  destruct r as [|c r]; [discriminate|]. injection Hp as ->.
  now rewrite Hg, Hw.
Qed.

Lemma exchange_header i j r :
  0 < i -> 0 < j ->
  is_goalie_header (exchange i j r) = is_goalie_header r.
Proof.
  intros Hi Hj. apply eq_true_iff_eq. unfold is_true.
  rewrite !is_goalie_header_iff, !contains_exchange.
  now rewrite exchange_lookup_other by lia.
Qed.

Lemma exchange_no_marker i j r :
  0 < i -> i < length r -> is_section_marker (exchange i j r) = false.
Proof.
  intros Hi Hlt. destruct (is_section_marker _) eqn:E; [|reflexivity].
  exfalso. pose proof (exchange_length i j r) as Hl.
  unfold is_section_marker in E. apply orb_prop in E as [E|E];
    apply is_marker_eq in E; rewrite E in Hl; simpl in Hl; lia.
Qed.

Lemma inverted_exchange gp wg r :
  inverted gp wg r = true -> inverted gp wg (exchange gp wg r) = false.
Proof.
  unfold inverted at 1.
  destruct (r !! gp) as [a|] eqn:Ha; [|discriminate].
  destruct (r !! wg) as [b|] eqn:Hb; [|discriminate].
  destruct (leading_int a) as [g|] eqn:Eg; [|discriminate].
  destruct (leading_int b) as [w|] eqn:Ew; [|discriminate].
  intros H. apply Z.ltb_lt in H. unfold inverted.
  rewrite (exchange_lookup_l gp wg r a b Ha Hb).
  rewrite (exchange_lookup_r gp wg r a b Ha Hb).
  rewrite Eg, Ew. apply Z.ltb_ge. lia.
Qed.

Lemma step_did_global_mono st r :
  did_global_column_swap st = true ->
  did_global_column_swap (step_value st r).1 = true.
Proof.
  intros H. unfold step_value.
  destruct (is_marker "Goalies" r); [exact H|].
  destruct (is_marker "Skaters" r); [exact H|].
  destruct (negb (in_goalies st)); [exact H|].
  destruct (is_goalie_header r).
  - cbv zeta. destruct (_ <? _); [reflexivity|exact H].
  - destruct (covered st r) as [[gp wg]|]; [|exact H].
    destruct (_ || _); exact H.
Qed.

Lemma did_global_mono st rows :
  did_global_column_swap st = true ->
  did_global_column_swap (state_after st rows) = true.
Proof.
  revert st. induction rows as [|r rows IH]; intros st H; [exact H|].
  rewrite state_after_cons. apply IH. now apply step_did_global_mono.
Qed.

Lemma step_indices_positive st r :
  indices_positive st -> indices_positive (step_value st r).1.
Proof.
  intros [Hg Hw]. unfold step_value.
  destruct (is_marker "Goalies" r); [split; discriminate|].
  destruct (is_marker "Skaters" r); [split; discriminate|].
  destruct (negb (in_goalies st)); [now split|].
  destruct (is_goalie_header r) eqn:Hh.
  - destruct (header_positions_nonzero r Hh) as [Pg Pw].
    cbv zeta. destruct (_ <? _); split; simpl; intros ? [= <-]; assumption.
  - destruct (covered st r) as [[gp wg]|]; [|now split].
    destruct (_ || _); now split.
Qed.

(** While the global swap stays off, the second run meets in the emitted
    row what the first run left: the same state but for the flag, and
    nothing to change. *)
Lemma step_quiet st r :
  indices_positive st ->
  did_global_column_swap (step_value st r).1 = false ->
  step_value (quiet st) (step_value st r).2 =
  (quiet (step_value st r).1, (step_value st r).2).
Proof.
  intros [Pg Pw] Hoff.
  destruct (did_global_column_swap st) eqn:Hd.
  { now rewrite step_did_global_mono in Hoff. }
  destruct (is_section_marker r) eqn:Hm.
  { unfold is_section_marker in Hm.
    apply orb_prop in Hm as [Hm|Hm]; apply is_marker_eq in Hm; subst r;
      reflexivity. }
  destruct (in_goalies st) eqn:Hin.
  2:{ rewrite (step_outside_state st r Hm Hin). simpl.
      now rewrite step_outside_state. }
  destruct (is_goalie_header r) eqn:Hh.
  - rewrite (step_header st r Hm Hin Hh) in Hoff |- *.
    cbv zeta in Hoff |- *.
    destruct (_ <? _) eqn:Hlt; [discriminate|]. simpl.
    rewrite (step_header (quiet st) r Hm Hin Hh). cbv zeta. now rewrite Hlt.
  - rewrite (step_data st r Hm Hin Hh).
    destruct (covered st r) as [[gp wg]|] eqn:Hc.
    2:{ simpl. rewrite (step_data (quiet st) r Hm Hin Hh).
        change (covered (quiet st) r) with (covered st r). now rewrite Hc. }
    destruct (covered_Some _ _ _ _ Hc) as (Hgp & Hwg & Hlg & Hlw).
    rewrite Hd. simpl. destruct (inverted gp wg r) eqn:Hi; simpl.
    + pose proof (Pg _ Hgp) as Hg0. pose proof (Pw _ Hwg) as Hw0.
      rewrite step_data.
      * assert (Hc' : covered (quiet st) (exchange gp wg r) = Some (gp, wg)).
        { rewrite (covered_indices (quiet st) _ gp wg Hgp Hwg).
          rewrite exchange_length.
          now destruct (Nat.ltb_spec (Nat.max gp wg) (length r)); [|lia]. }
        rewrite Hc'. simpl. rewrite Hd, (inverted_exchange _ _ _ Hi).
        reflexivity.
      * now apply exchange_no_marker.
      * exact Hin.
      * now rewrite exchange_header.
    + rewrite (step_data (quiet st) r Hm Hin Hh).
      change (covered (quiet st) r) with (covered st r). rewrite Hc.
      simpl. now rewrite Hd, Hi.
Qed.

Lemma run_quiet st rows :
  indices_positive st ->
  did_global_column_swap (state_after st rows) = false ->
  emitted (quiet st) (emitted st rows) = emitted st rows /\
  state_after (quiet st) (emitted st rows) = quiet (state_after st rows).
Proof.
  revert st. induction rows as [|r rows IH]; intros st Hpos Hoff; [auto|].
  rewrite state_after_cons in Hoff |- *.
  assert (Hoff1 : did_global_column_swap (step_value st r).1 = false).
  { destruct (did_global_column_swap (step_value st r).1) eqn:E;
      [|reflexivity].
    now rewrite (did_global_mono _ rows E) in Hoff. }
  destruct (IH _ (step_indices_positive st r Hpos) Hoff) as [He Hs].
  cbn [emitted]. rewrite state_after_cons.
  rewrite (step_quiet st r Hpos Hoff1). simpl. now rewrite He, Hs.
Qed.

End SecondRun.

(** X2.  When a run ends with the global swap off (no reversed header was met
    inside a goalie section), the normaliser is idempotent on it: run on
    its own output, it returns that output again with the flag false. *)
Theorem idempotent_without_global_swap
    (rows : list row) (st : state) (out : list row) :
  run initial_state [] rows = Returns (st, out) ->
  did_global_column_swap st = false ->
  swap_goalie_columns_in_rows out = Returns (out, false).
Proof.
  intros Hrun Hoff. rewrite run_returns in Hrun. injection Hrun as <- <-.
  assert (Hpos : indices_positive initial_state) by (split; discriminate).
  destruct (run_quiet initial_state rows Hpos Hoff) as [He Hs].
  rewrite swap_goalie_columns_in_rows_returns.
  change (emitted initial_state (emitted initial_state rows))
    with (emitted (quiet initial_state) (emitted initial_state rows)).
  change (state_after initial_state (emitted initial_state rows))
    with (state_after (quiet initial_state) (emitted initial_state rows)).
  now rewrite He, Hs.
Qed.

Lemma idempotent_without_global_swap_witness :
  let rows := [["Pos"; "W-G"; "GP"]; ["Goalies"]; ["Pos"; "P"; "GP"; "W-G"];
               ["G"; "A"; "20"; "25"]; ["G"; "B"; "30"; "12"]] in
  let out := [["Pos"; "W-G"; "GP"]; ["Goalies"]; ["Pos"; "P"; "GP"; "W-G"];
              ["G"; "A"; "25"; "20"]; ["G"; "B"; "30"; "12"]] in
  let st := {| in_goalies := true; swapped_any := true;
               gp_idx := Some 2; wg_idx := Some 3;
               did_global_column_swap := false |} in
  run initial_state [] rows = Returns (st, out) /\
  did_global_column_swap st = false /\
  swap_goalie_columns_in_rows out = Returns (out, false).
Proof.
  intros rows out st. do 2 (split; [reflexivity|]).
  apply (idempotent_without_global_swap rows st out); reflexivity.
Defined.

(** X3.  While the global swap is off, the per-row rule decides alone: a data
    row that has both tracked cells is exchanged exactly when both cells
    have a leading integer and the one at the ["W-G"] position is the
    larger. *)
Theorem per_row_rule_without_global_swap
    (before sec : list row) (h r : row) (post : list row) (i j : nat)
    (st : state) (o : list row) (a b : string) (ga gb : option Z) :
  run initial_state [] (before ++ ["Goalies"] :: sec) = Returns (st, o) ->
  did_global_column_swap st = false ->
  forallb (fun x => negb (is_section_marker x)) sec = true ->
  last_header sec = Some h ->
  Py.index "GP" h = Returns i -> Py.index "W-G" h = Returns j ->
  is_section_marker r = false -> is_goalie_header r = false ->
  r !! i = Some a -> r !! j = Some b ->
  _parse_int_prefix a = Returns ga -> _parse_int_prefix b = Returns gb ->
  exists out flag,
    swap_goalie_columns_in_rows (before ++ ["Goalies"] :: sec ++ r :: post)
    = Returns (out, flag) /\
    out !! (length before + 1 + length sec) =
    Some (match ga, gb with
          | Some g, Some w => if (g <? w)%Z then exchange i j r else r
          | _, _ => r
          end).
Proof.
  intros Hrun Hoff Hsec Hlast Hi Hj Hm Hh Ha Hb Hga Hgb.
  rewrite run_returns in Hrun. injection Hrun as <- _.
  rewrite _parse_int_prefix_returns in Hga, Hgb.
  injection Hga as <-. injection Hgb as <-.
  eexists _, _. split; [apply swap_goalie_columns_in_rows_returns|].
  rewrite (canonical_section_row before sec h r post) by assumption.
  rewrite (index_position _ _ _ Hi), (index_position _ _ _ Hj).
  pose proof (lookup_lt_Some _ _ _ Hb) as Hlt.
  destruct (Nat.ltb_spec j (length r)); [|lia]. simpl.
  unfold inverted. rewrite Ha, Hb.
  destruct (leading_int a), (leading_int b); reflexivity.
Qed.

Lemma per_row_rule_without_global_swap_witness :
  let before := [["Skaters"]; ["D"; "x"]] in
  let sec := [["note"]; ["Pos"; "Player"; "GP"; "W-G"]] in
  let h := ["Pos"; "Player"; "GP"; "W-G"] in
  let r := ["G"; "A"; " 15"; "18-5-3"] in
  let st := {| in_goalies := true; swapped_any := false;
               gp_idx := Some 2; wg_idx := Some 3;
               did_global_column_swap := false |} in
  let o := [["Skaters"]; ["D"; "x"]; ["Goalies"]; ["note"];
            ["Pos"; "Player"; "GP"; "W-G"]] in
  run initial_state [] (before ++ ["Goalies"] :: sec) = Returns (st, o) /\
  did_global_column_swap st = false /\
  forallb (fun x => negb (is_section_marker x)) sec = true /\
  last_header sec = Some h /\
  Py.index "GP" h = Returns 2 /\ Py.index "W-G" h = Returns 3 /\
  is_section_marker r = false /\ is_goalie_header r = false /\
  r !! 2 = Some " 15" /\ r !! 3 = Some "18-5-3" /\
  _parse_int_prefix " 15" = Returns (Some 15%Z) /\
  _parse_int_prefix "18-5-3" = Returns (Some 18%Z) /\
  exists out flag,
    swap_goalie_columns_in_rows (before ++ ["Goalies"] :: sec ++ r :: [])
    = Returns (out, flag) /\
    out !! (length before + 1 + length sec) =
    Some (if (15 <? 18)%Z then exchange 2 3 r else r).
Proof.
  intros before sec h r st o. do 12 (split; [reflexivity|]).
  apply (per_row_rule_without_global_swap before sec h r [] 2 3 st o
           " 15" "18-5-3" (Some 15%Z) (Some 18%Z)); reflexivity.
Defined.

(** ** The leading integer of a cell *)

Section LeadingInt.

Implicit Types (s ws ds rest value : string).

Lemma span_space_app ws s :
  all_space ws = true ->
  span_chars Py.is_space (ws ++ s)%string =
  ((ws ++ (span_chars Py.is_space s).1)%string,
   (span_chars Py.is_space s).2).
Proof.
  induction ws as [|c ws IH]; simpl.
  - now destruct (span_chars Py.is_space s).
  - intros H. apply andb_prop in H as [-> H]. now rewrite (IH H).
Qed.

Lemma span_space_no_space s :
  all_space s = true -> span_chars Py.is_space s = (s, EmptyString).
Proof.
  induction s as [|c s IH]; simpl; [reflexivity|].
  intros H. apply andb_prop in H as [-> H]. now rewrite (IH H).
Qed.

Lemma span_digits_app ds rest :
  all_digits ds = true -> no_leading_digit rest = true ->
  span_chars Py.is_digit (ds ++ rest)%string = (ds, rest).
Proof.
  intros Hd Hr. induction ds as [|c ds IH]; simpl.
  - destruct rest as [|c rest]; [reflexivity|]. simpl in Hr |- *.
    apply negb_true_iff in Hr. now rewrite Hr.
  - simpl in Hd. apply andb_prop in Hd as [-> Hd]. now rewrite (IH Hd).
Qed.

Lemma digit_not_space c : Py.is_digit c = true -> Py.is_space c = false.
Proof.
  unfold Py.is_digit, Py.is_space. intros H.
  apply andb_prop in H as [H1 H2].
  apply Nat.leb_le in H1. apply Nat.leb_le in H2.
  repeat match goal with
         | |- context [?a <=? ?b] => destruct (Nat.leb_spec a b)
         | |- context [?a =? ?b] => destruct (Nat.eqb_spec a b)
         end; simpl; try reflexivity; lia.
Qed.

(** The guard on the empty string changes nothing: the pattern finds no
    digits in it. *)
Lemma _parse_int_prefix_match value :
  _parse_int_prefix value =
  match int_prefix_match value with
  | None => Returns None
  | Some ds =>
      match Py.int ds with
      | Returns n => Returns (Some n)
      | Raises _ => Returns None
      end
  end.
Proof.
  unfold _parse_int_prefix. destruct value as [|c value]; [reflexivity|].
  destruct (int_prefix_match _) as [ds|]; [|reflexivity].
  unfold Py.int. now destruct (_ <? _)%Z.
Qed.

Lemma int_prefix_match_space ws s :
  all_space ws = true ->
  int_prefix_match (ws ++ s)%string = int_prefix_match s.
Proof.
  intros H. unfold int_prefix_match. rewrite (span_space_app ws s H).
  now destruct (span_chars Py.is_space s).
Qed.

Lemma int_prefix_match_digits ds rest :
  all_digits ds = true -> ds <> EmptyString ->
  no_leading_digit rest = true ->
  int_prefix_match (ds ++ rest)%string = Some ds.
Proof.
  intros Hd Hne Hr. unfold int_prefix_match.
  assert (Hs : span_chars Py.is_space (ds ++ rest)%string
               = (EmptyString, (ds ++ rest)%string)).
  { destruct ds as [|c ds]; [congruence|]. simpl in Hd |- *.
    apply andb_prop in Hd as [Hc _]. now rewrite (digit_not_space c Hc). }
  rewrite Hs, (span_digits_app ds rest Hd Hr).
  destruct ds; [congruence|reflexivity].
Qed.

Lemma _parse_int_prefix_space ws s :
  all_space ws = true ->
  _parse_int_prefix (ws ++ s)%string = _parse_int_prefix s.
Proof.
  intros H. rewrite !_parse_int_prefix_match.
  now rewrite (int_prefix_match_space ws s H).
Qed.

Lemma digits_value_nonneg ds acc :
  (0 <= acc)%Z -> (0 <= Py.digits_value acc ds)%Z.
Proof.
  revert acc. induction ds as [|c ds IH]; intros acc H; simpl; [exact H|].
  apply IH. unfold Py.digit_value. lia.
Qed.

End LeadingInt.

(** X10.  [_parse_int_prefix] never raises, whatever the cell holds, and an
    integer it returns is not negative. *)
Theorem parse_int_prefix_returns_natural (value : string) :
  exists o,
    _parse_int_prefix value = Returns o /\
    forall n, o = Some n -> (0 <= n)%Z.
Proof.
  rewrite _parse_int_prefix_match.
  destruct (int_prefix_match value) as [ds|];
    [|eexists; split; [reflexivity|discriminate]].
  unfold Py.int. destruct (_ <? _)%Z;
    (eexists; split; [reflexivity|]); [discriminate|].
  intros n [= <-]. now apply digits_value_nonneg.
Qed.

(** X11.  White space before the number is skipped: it changes nothing in what
    [_parse_int_prefix] returns. *)
Theorem parse_int_prefix_skips_space (ws s : string) :
  all_space ws = true ->
  _parse_int_prefix (ws ++ s)%string = _parse_int_prefix s.
Proof. apply _parse_int_prefix_space. Qed.

Lemma parse_int_prefix_skips_space_witness :
  let ws := String "009"%char (String " "%char EmptyString) in
  all_space ws = true /\
  _parse_int_prefix (ws ++ "22-10-8")%string = _parse_int_prefix "22-10-8".
Proof.
  intros ws. split; [reflexivity|].
  apply (parse_int_prefix_skips_space ws "22-10-8"). reflexivity.
Defined.

(** X12.  The integer returned is that of the whole first run of digits: what
    follows the run, from its first character that is no digit, is
    ignored. *)
Theorem parse_int_prefix_digit_run (ws ds rest : string) (n : Z) :
  all_space ws = true ->
  all_digits ds = true -> ds <> EmptyString ->
  no_leading_digit rest = true ->
  Py.int ds = Returns n ->
  _parse_int_prefix (ws ++ ds ++ rest)%string = Returns (Some n).
Proof.
  intros Hw Hd Hne Hr Hn.
  rewrite (_parse_int_prefix_space ws (ds ++ rest)%string Hw).
  rewrite _parse_int_prefix_match.
  now rewrite (int_prefix_match_digits ds rest Hd Hne Hr), Hn.
Qed.

Lemma parse_int_prefix_digit_run_witness :
  all_space " " = true /\
  all_digits "18" = true /\ "18" <> EmptyString /\
  no_leading_digit "-5-3" = true /\
  Py.int "18" = Returns 18%Z /\
  _parse_int_prefix (" " ++ "18" ++ "-5-3")%string = Returns (Some 18%Z).
Proof.
  do 2 (split; [reflexivity|]). split; [discriminate|].
  do 2 (split; [reflexivity|]).
  apply (parse_int_prefix_digit_run " " "18" "-5-3" 18%Z);
    [reflexivity|reflexivity|discriminate|reflexivity|reflexivity].
Defined.

(** X13.  A cell whose first character is neither white space nor a digit has
    no leading integer: a sign, in particular, is not accepted. *)
Theorem parse_int_prefix_no_number (c : ascii) (s : string) :
  Py.is_space c = false -> Py.is_digit c = false ->
  _parse_int_prefix (String c s) = Returns None.
Proof.
  intros Hs Hd. rewrite _parse_int_prefix_match.
  unfold int_prefix_match. cbn [span_chars]. rewrite Hs.
  cbn [span_chars]. now rewrite Hd.
Qed.

Lemma parse_int_prefix_no_number_witness :
  Py.is_space "-"%char = false /\ Py.is_digit "-"%char = false /\
  _parse_int_prefix (String "-"%char "5") = Returns None.
Proof.
  do 2 (split; [reflexivity|]).
  apply (parse_int_prefix_no_number "-"%char "5"); reflexivity.
Defined.

(** ** File names and the loop of [main] *)

Section Main.

Implicit Types (name report g : string) (t : tally).
Implicit Types (files : list (string * list row)).

Lemma FILENAME_RE_match_report name report g :
  FILENAME_RE_match name = Some (report, g) ->
  report = "regular" \/ report = "playoffs".
Proof.
  unfold FILENAME_RE_match, filename_alt.
  destruct (literal "regular" name) as [r1|].
  - destruct (filename_tail r1) as [g1|]; [intros [= <- _]; now left|].
    destruct (literal "playoffs" name) as [r2|]; [|discriminate].
    destruct (filename_tail r2) as [g2|]; [|discriminate].
    intros [= <- _]. now right.
  - destruct (literal "playoffs" name) as [r2|]; [|discriminate].
    destruct (filename_tail r2) as [g2|]; [|discriminate].
    intros [= <- _]. now right.
Qed.

Lemma digit_value_bound c :
  Py.is_digit c = true -> (0 <= Py.digit_value c <= 9)%Z.
Proof.
  unfold Py.is_digit, Py.digit_value. intros H.
  apply andb_prop in H as [H1 H2].
  apply Nat.leb_le in H1. apply Nat.leb_le in H2. lia.
Qed.

Lemma year_value_bound g :
  is_year g = true -> (0 <= Py.digits_value 0 g <= 9999)%Z.
Proof.
  intros H. apply is_year_inv in H as [L D].
  destruct g as [|c1 [|c2 [|c3 [|c4 [|c5 g]]]]]; try discriminate L.
  simpl in D.
  repeat match goal with
         | H : _ && _ = true |- _ => apply andb_prop in H as [? H]
         end.
  repeat match goal with
         | H : Py.is_digit _ = true |- _ => apply digit_value_bound in H
         end.
  simpl. lia.
Qed.

Lemma parse_season_cases name :
  parse_season_from_filename name = Returns None \/
  exists report g,
    parse_season_from_filename name
    = Returns (Some (report, Py.digits_value 0 g)) /\
    Py.contains report REPORTS = true /\ is_year g = true.
Proof.
  unfold parse_season_from_filename.
  destruct (FILENAME_RE_match name) as [[report g]|] eqn:E; [|now left].
  right. exists report, g.
  pose proof (FILENAME_RE_match_year _ _ _ E) as Hy.
  rewrite (int_year g Hy). split; [reflexivity|]. split; [|exact Hy].
  now destruct (FILENAME_RE_match_report _ _ _ E) as [-> | ->].
Qed.

(** What one iteration of the loop returns. *)
Lemma main_step_returns t name rows :
  main_step t name rows =
  Returns
    (if candidate name then
       if swapped_any (state_after initial_state rows) then
         {| changed := changed t + 1; checked := checked t + 1;
            written := written t ++ [(name, emitted initial_state rows)] |}
       else
         {| changed := changed t; checked := checked t + 1;
            written := written t |}
     else t).
Proof.
  unfold main_step, candidate.
  destruct (parse_season_cases name) as [->|(report & g & -> & Hr & _)];
    [reflexivity|].
  simpl py_bind. simpl in Hr. rewrite Hr. simpl negb. cbv iota.
  destruct (_ && _); simpl; [|reflexivity].
  rewrite swap_goalie_columns_in_rows_returns. simpl.
  now destruct (swapped_any _).
Qed.

Lemma rewrites_cons name rows files :
  rewrites ((name, rows) :: files) =
  (if candidate name then
     if swapped_any (state_after initial_state rows)
     then [(name, emitted initial_state rows)] else []
   else []) ++ rewrites files.
Proof.
  unfold rewrites. simpl. rewrite swap_goalie_columns_in_rows_returns.
  destruct (candidate name); [|reflexivity].
  now destruct (swapped_any _).
Qed.

Lemma main_loop_returns t files :
  main_loop t files =
  Returns
    {| changed := changed t + length (rewrites files);
       checked := checked t
                  + length (List.filter (fun f => candidate f.1) files);
       written := written t ++ rewrites files |}.
Proof.
  revert t. induction files as [|[name rows] files IH]; intros t.
  - simpl. rewrite !Nat.add_0_r, app_nil_r. now destruct t.
  - cbn [main_loop]. rewrite main_step_returns. simpl py_bind. rewrite IH.
    rewrite rewrites_cons. cbn [List.filter fst].
    destruct (candidate name); [|reflexivity].
    destruct (swapped_any _); cbn [changed checked written length app];
      rewrite <- ?app_assoc, <- ?Nat.add_assoc; reflexivity.
Qed.

Lemma rewrites_length files :
  length (rewrites files)
  <= length (List.filter (fun f => candidate f.1) files).
Proof.
  induction files as [|[name rows] files IH]; [reflexivity|].
  rewrite rewrites_cons, length_app. cbn [List.filter fst].
  destruct (candidate name); [|exact IH].
  destruct (swapped_any _); simpl; lia.
Qed.

End Main.

(** X15.  [parse_season_from_filename] never raises: the [int] call it does not
    guard only sees four digits.  What it returns names a report kind of
    [REPORTS], so that the test [report not in REPORTS] of [main] never
    rejects a file, and a season between 0 and 9999. *)
Theorem parse_season_from_filename_range (filename : string) :
  exists o,
    parse_season_from_filename filename = Returns o /\
    forall report season, o = Some (report, season) ->
      Py.contains report REPORTS = true /\ (0 <= season <= 9999)%Z.
Proof.
  destruct (parse_season_cases filename) as [->|(report & g & -> & Hr & Hy)].
  - eexists. split; [reflexivity|discriminate].
  - eexists. split; [reflexivity|]. intros ? ? [= <- <-].
    split; [exact Hr|]. now apply year_value_bound.
Qed.

(** X17.  The loop of [main] never raises.  It counts as checked the files whose
    name parses with a season from 2012 to 2024, and as changed the writes
    it does; neither count exceeds the one above it. *)
Theorem main_loop_counts (files : list (string * list row)) :
  exists t,
    main_loop empty_tally files = Returns t /\
    checked t = length (List.filter (fun f => candidate f.1) files) /\
    changed t = length (written t) /\
    changed t <= checked t <= length files.
Proof.
  eexists. split; [apply main_loop_returns|]. simpl.
  split; [reflexivity|]. split; [reflexivity|].
  split; [apply rewrites_length|apply List.filter_length_le].
Qed.

(** X18.  A file is written exactly when its name is a candidate and the
    normaliser reports a change for its rows; what is written is what the
    normaliser returned. *)
Theorem main_loop_writes
    (files : list (string * list row)) (name : string) (out : list row) :
  exists t,
    main_loop empty_tally files = Returns t /\
    ((name, out) ∈ written t <->
     exists rows,
       (name, rows) ∈ files /\ candidate name = true /\
       swap_goalie_columns_in_rows rows = Returns (out, true)).
Proof.
  eexists. split; [apply main_loop_returns|]. simpl.
  rewrite list_elem_of_In. unfold rewrites. rewrite in_flat_map. split.
  - intros ([n rows] & Hin & Hw). simpl in Hw.
    destruct (candidate n) eqn:Hc; [|destruct Hw].
    rewrite swap_goalie_columns_in_rows_returns in Hw.
    destruct (swapped_any (state_after initial_state rows)) eqn:Hs;
      [|destruct Hw].
    destruct Hw as [[= <- <-]|[]]. exists rows.
    rewrite list_elem_of_In, swap_goalie_columns_in_rows_returns, Hs. auto.
  - intros (rows & Hin & Hc & Hsw). exists (name, rows).
    split; [now apply list_elem_of_In|]. simpl. rewrite Hc, Hsw. now left.
Qed.

(** ** What a run leaves behind *)

Section Structure.

Implicit Types (r h : row) (st : state) (rows sec : list row).

Lemma exchange_markers i j r label :
  0 < i -> i < length r -> is_section_marker r = false ->
  is_marker label (exchange i j r) = is_marker label r.
Proof.
  intros Hi Hlt Hm.
  destruct (is_marker label (exchange i j r)) eqn:E.
  - exfalso. apply is_marker_eq in E.
    pose proof (exchange_length i j r) as Hl. rewrite E in Hl.
    simpl in Hl. lia.
  - destruct (is_marker label r) eqn:E'; [|reflexivity].
    exfalso. apply is_marker_eq in E'. subst r. simpl in Hlt. lia.
Qed.

Lemma reversed_header_exchanged h :
  is_goalie_header h = true ->
  position "W-G" h < position "GP" h ->
  is_reversed_header (exchange (position "GP" h) (position "W-G" h) h)
  = false.
Proof.
  intros Hh Hlt.
  destruct (is_goalie_header_contains h Hh) as (_ & Cg & Cw).
  destruct (contains_position _ _ Cg) as (Ig & _ & _).
  destruct (contains_position _ _ Cw) as (Iw & _ & _).
  destruct (exchanged_header_labels h _ _ Hh Ig Iw Hlt)
    as (Hg & w & Hw & Hlt').
  unfold is_reversed_header.
  rewrite (index_position _ _ _ Hg), (index_position _ _ _ Hw).
  destruct (Nat.ltb_spec w (position "W-G" h)); [lia|].
  apply andb_false_r.
Qed.

(** The emitted row is a marker, or a header, exactly when the input row
    is; emitted inside a section, it is no reversed header. *)
Lemma step_structure st r :
  indices_positive st ->
  is_marker "Goalies" (step_value st r).2 = is_marker "Goalies" r /\
  is_marker "Skaters" (step_value st r).2 = is_marker "Skaters" r /\
  is_goalie_header (step_value st r).2 = is_goalie_header r /\
  (in_goalies st = true -> is_reversed_header (step_value st r).2 = false).
Proof.
  intros [Pg Pw].
  destruct (is_section_marker r) eqn:Hm.
  { rewrite step_marker by assumption. repeat split.
    intros _. unfold is_reversed_header.
    now rewrite (marker_not_header r Hm). }
  destruct (in_goalies st) eqn:Hin.
  2:{ rewrite step_outside by assumption. repeat split. discriminate. }
  destruct (is_goalie_header r) eqn:Hh.
  - rewrite (step_header st r Hm Hin Hh). cbv zeta.
    destruct (header_positions_nonzero r Hh) as [Hg0 Hw0].
    destruct (is_goalie_header_contains r Hh) as (_ & Cg & _).
    pose proof (position_lt _ _ Cg) as Hlg.
    destruct (Nat.ltb_spec (position "W-G" r) (position "GP" r)); simpl.
    + split; [now apply exchange_markers|].
      split; [now apply exchange_markers|].
      split; [now rewrite exchange_header|].
      intros _. now apply reversed_header_exchanged.
    + repeat split; try assumption. intros _. unfold is_reversed_header.
      rewrite Hh. simpl. apply Nat.ltb_ge. lia.
  - rewrite (step_data st r Hm Hin Hh).
    destruct (covered st r) as [[gp wg]|] eqn:Hc.
    2:{ simpl. repeat split; try assumption. intros _.
        unfold is_reversed_header. now rewrite Hh. }
    destruct (covered_Some _ _ _ _ Hc) as (Hgp & Hwg & Hlg & Hlw).
    pose proof (Pg _ Hgp). pose proof (Pw _ Hwg).
    destruct (_ || _); simpl.
    + split; [now apply exchange_markers|].
      split; [now apply exchange_markers|].
      split; [now rewrite exchange_header|].
      intros _. unfold is_reversed_header.
      now rewrite exchange_header, Hh.
    + repeat split; try assumption. intros _.
      unfold is_reversed_header. now rewrite Hh.
Qed.

Lemma indices_positive_after pre :
  indices_positive (state_after initial_state pre).
Proof.
  induction pre as [|x pre IH] using rev_ind; [split; discriminate|].
  rewrite state_after_snoc. now apply step_indices_positive.
Qed.

Lemma step_did_global st r :
  did_global_column_swap (step_value st r).1 = true ->
  did_global_column_swap st = true \/
  (in_goalies st = true /\ is_reversed_header r = true).
Proof.
  unfold step_value, is_reversed_header.
  destruct (is_marker "Goalies" r); [now left|].
  destruct (is_marker "Skaters" r); [now left|].
  destruct (in_goalies st); simpl; [|now left].
  destruct (is_goalie_header r).
  - cbv zeta. destruct (_ <? _); simpl; [now right|now left].
  - destruct (covered st r) as [[gp wg]|]; [|now left].
    destruct (_ || _); now left.
Qed.

(** A run over what an earlier run emitted never turns the global swap
    on. *)
Lemma second_run_no_global st st2 rows :
  indices_positive st ->
  in_goalies st2 = in_goalies st ->
  did_global_column_swap st2 = false ->
  did_global_column_swap (state_after st2 (emitted st rows)) = false.
Proof.
  revert st st2. induction rows as [|r rows IH]; intros st st2 Hpos Hin Hoff;
    [exact Hoff|].
  cbn [emitted]. rewrite state_after_cons.
  destruct (step_structure st r Hpos) as (Mg & Ms & _ & Hrev).
  apply (IH (step_value st r).1).
  - now apply step_indices_positive.
  - rewrite !step_in_goalies, Mg, Ms, Hin. reflexivity.
  - destruct (did_global_column_swap (step_value st2 _).1) eqn:E;
      [|reflexivity].
    apply step_did_global in E as [E|[E1 E2]]; [congruence|].
    rewrite Hin in E1. rewrite (Hrev E1) in E2. discriminate.
Qed.

End Structure.

(** X5.  A run neither makes nor unmakes a marker row or a goalie header: the
    emitted row is a section marker, or a goalie header, exactly when the
    input row at its position is. *)
Theorem markers_and_headers_kept (rows : list row) :
  exists out flag,
    swap_goalie_columns_in_rows rows = Returns (out, flag) /\
    forall i r r', rows !! i = Some r -> out !! i = Some r' ->
      is_marker "Goalies" r' = is_marker "Goalies" r /\
      is_marker "Skaters" r' = is_marker "Skaters" r /\
      is_goalie_header r' = is_goalie_header r.
Proof.
  eexists _, _. split; [apply swap_goalie_columns_in_rows_returns|].
  intros i r r' Hr Hr'. rewrite (emitted_lookup _ _ _ _ Hr) in Hr'.
  injection Hr' as <-.
  destruct (step_structure _ r (indices_positive_after (take i rows)))
    as (Mg & Ms & Hh & _).
  auto.
Qed.

(** X4.  Every row emitted for a row of a goalie section is free of the
    defect: if it is a goalie header, ["GP"] comes before ["W-G"] in
    it. *)
Theorem emitted_section_headers_canonical
    (before sec : list row) (r : row) (post : list row) :
  forallb (fun x => negb (is_section_marker x)) sec = true ->
  exists out flag r',
    swap_goalie_columns_in_rows (before ++ ["Goalies"] :: sec ++ r :: post)
    = Returns (out, flag) /\
    out !! (length before + 1 + length sec) = Some r' /\
    is_reversed_header r' = false.
Proof.
  intros Hsec. eexists _, _, _.
  split; [apply swap_goalie_columns_in_rows_returns|].
  replace (before ++ ["Goalies"] :: sec ++ r :: post)
    with ((before ++ ["Goalies"] :: sec) ++ r :: post)
    by now rewrite <- app_assoc.
  replace (length before + 1 + length sec)
    with (length (before ++ ["Goalies"] :: sec))
    by (rewrite length_app; simpl; lia).
  split; [apply emitted_middle|].
  destruct (step_structure _ r
              (indices_positive_after (before ++ ["Goalies"] :: sec)))
    as (_ & _ & _ & Hrev).
  apply Hrev. rewrite state_after_app, state_after_cons.
  match goal with |- context [state_after ?s sec] =>
    now destruct (section_state s sec eq_refl Hsec) as (Hin & _) end.
Qed.

Lemma emitted_section_headers_canonical_witness :
  let before := [["Skaters"]] in
  let sec := [["Pos"; "GP"; "W-G"]; ["G"; "1"; "2"]] in
  let r := ["Pos"; "W-G"; "x"; "GP"] in
  forallb (fun x => negb (is_section_marker x)) sec = true /\
  exists out flag r',
    swap_goalie_columns_in_rows (before ++ ["Goalies"] :: sec ++ r :: [])
    = Returns (out, flag) /\
    out !! (length before + 1 + length sec) = Some r' /\
    is_reversed_header r' = false.
Proof.
  intros before sec r. split; [reflexivity|].
  apply (emitted_section_headers_canonical before sec r []). reflexivity.
Defined.

(** X1.  The second run is the last to change anything: run on the output of
    its second run, the normaliser returns that output again with the flag
    false. *)
Theorem third_run_changes_nothing (rows : list row) :
  exists out1 flag1 out2 flag2,
    swap_goalie_columns_in_rows rows = Returns (out1, flag1) /\
    swap_goalie_columns_in_rows out1 = Returns (out2, flag2) /\
    swap_goalie_columns_in_rows out2 = Returns (out2, false).
Proof.
  eexists _, _, _, _.
  split; [apply swap_goalie_columns_in_rows_returns|].
  split; [apply swap_goalie_columns_in_rows_returns|].
  assert (Hpos : indices_positive initial_state) by (split; discriminate).
  pose proof (second_run_no_global initial_state initial_state rows
                Hpos eq_refl eq_refl) as Hoff.
  destruct (run_quiet initial_state (emitted initial_state rows) Hpos Hoff)
    as [He Hs].
  rewrite swap_goalie_columns_in_rows_returns.
  set (out2 := emitted initial_state (emitted initial_state rows)) in *.
  change (emitted initial_state out2)
    with (emitted (quiet initial_state) out2).
  change (state_after initial_state out2)
    with (state_after (quiet initial_state) out2).
  now rewrite He, Hs.
Qed.

(** ** The files [main] takes *)

Lemma FILENAME_RE_match_iff (name report g : string) :
  FILENAME_RE_match name = Some (report, g) <->
  exists y tail,
    (report = "regular" \/ report = "playoffs") /\
    is_year g = true /\ is_year y = true /\
    (tail = EmptyString \/ tail = line_feed) /\
    name = (report ++ "-" ++ g ++ "-" ++ y ++ ".csv" ++ tail)%string.
Proof.
  split.
  - intros H. pose proof (FILENAME_RE_match_report _ _ _ H) as Hrep.
    revert H. unfold FILENAME_RE_match, filename_alt.
    destruct (literal "regular" name) as [r1|] eqn:E1.
    + apply literal_inv in E1. subst name.
      destruct (filename_tail r1) as [g1|] eqn:T1; [|discriminate].
      intros [= <- <-].
      apply filename_tail_iff in T1 as (y & tail & Hg & Hy & Ht & ->).
      exists y, tail. auto 10.
    + destruct (literal "playoffs" name) as [r2|] eqn:E2; [|discriminate].
      apply literal_inv in E2. subst name.
      destruct (filename_tail r2) as [g2|] eqn:T2; [|discriminate].
      intros [= <- <-].
      apply filename_tail_iff in T2 as (y & tail & Hg & Hy & Ht & ->).
      exists y, tail. auto 10.
  - intros (y & tail & Hrep & Hg & Hy & Ht & ->).
    assert (Htail : filename_tail
                      ("-" ++ g ++ "-" ++ y ++ ".csv" ++ tail)%string
                    = Some g).
    { apply filename_tail_iff. exists y, tail. auto. }
    unfold FILENAME_RE_match, filename_alt.
    destruct Hrep as [-> | ->].
    + now rewrite literal_app, Htail.
    + change (literal "regular" ("playoffs" ++ _)%string) with (@None string).
      now rewrite literal_app, Htail.
Qed.

(** The names the guards of [main] let through: [<report>-<year>-<year>.csv]
    with the first year between 2012 and 2024, also with a line feed after
    [.csv]; the second year is not looked at. *)
Lemma candidate_names (name : string) :
  candidate name = true <->
  exists report y1 y2 tail,
    (report = "regular" \/ report = "playoffs") /\
    is_year y1 = true /\ is_year y2 = true /\
    (tail = EmptyString \/ tail = line_feed) /\
    name = (report ++ "-" ++ y1 ++ "-" ++ y2 ++ ".csv" ++ tail)%string /\
    (2012 <= Py.digits_value 0 y1 <= 2024)%Z.
Proof.
  unfold candidate, parse_season_from_filename.
  destruct (FILENAME_RE_match name) as [[report g]|] eqn:E.
  - pose proof (FILENAME_RE_match_year _ _ _ E) as Hg.
    rewrite (int_year g Hg). simpl.
    rewrite andb_true_iff, !Z.leb_le. unfold SEASON_MIN, SEASON_MAX.
    split.
    + intros Hr. apply FILENAME_RE_match_iff in E
        as (y & tail & Hrep & _ & Hy & Ht & ->).
      exists report, g, y, tail. auto 10.
    + intros (report' & y1 & y2 & tail & Hrep & H1 & H2 & Ht & Hn & Hr).
      assert (E' : FILENAME_RE_match name = Some (report', y1)).
      { apply FILENAME_RE_match_iff. exists y2, tail. auto. }
      rewrite E in E'. now injection E' as -> ->.
  - split; [discriminate|].
    intros (report' & y1 & y2 & tail & Hrep & H1 & H2 & Ht & Hn & Hr).
    assert (E' : FILENAME_RE_match name = Some (report', y1)).
    { apply FILENAME_RE_match_iff. exists y2, tail. auto. }
    congruence.
Qed.

(** ** Names that end in [.csv] *)

Section CsvNames.

Implicit Types (a b s stem report tail filename : string).

Lemma last_char_app a (c : ascii) b :
  last_char (a ++ String c b)%string = last_char (String c b).
Proof.
  induction a as [|x a IH]; [reflexivity|].
  change (String x a ++ String c b)%string
    with (String x (a ++ String c b)%string).
  cbn [last_char]. rewrite IH.
  destruct (a ++ String c b)%string eqn:E; [|reflexivity].
  destruct a; discriminate E.
Qed.

Lemma last_char_season_name report (y1 y2 : string) s (c : ascii) :
  last_char (report ++ "-" ++ y1 ++ "-" ++ y2 ++ String c s)%string
  = last_char (String c s).
Proof.
  change (report ++ "-" ++ y1 ++ "-" ++ y2 ++ String c s)%string
    with (report ++ String "-"%char (y1 ++ String "-"%char
            (y2 ++ String c s)))%string.
  rewrite last_char_app.
  change (String "-"%char (y1 ++ String "-"%char (y2 ++ String c s)))%string
    with ((String "-"%char y1) ++ String "-"%char (y2 ++ String c s))%string.
  rewrite last_char_app.
  change (String "-"%char (y2 ++ String c s))%string
    with ((String "-"%char y2) ++ String c s)%string.
  apply last_char_app.
Qed.

(** A name that ends in [.csv] has no line feed after the pattern's
    [.csv]. *)
Lemma csv_name_no_tail stem report (y1 y2 : string) tail :
  (stem ++ ".csv")%string
  = (report ++ "-" ++ y1 ++ "-" ++ y2 ++ ".csv" ++ tail)%string ->
  tail = EmptyString \/ tail = line_feed ->
  tail = EmptyString.
Proof.
  intros H [->| ->]; [reflexivity|]. exfalso.
  apply (f_equal last_char) in H.
  rewrite last_char_app in H.
  change (".csv" ++ line_feed)%string
    with (String "."%char ("csv" ++ line_feed)%string) in H.
  rewrite last_char_season_name in H. discriminate H.
Qed.

Lemma parse_season_match filename :
  parse_season_from_filename filename =
  match FILENAME_RE_match filename with
  | None => Returns None
  | Some (report, g) => Returns (Some (report, Py.digits_value 0 g))
  end.
Proof.
  unfold parse_season_from_filename.
  destruct (FILENAME_RE_match filename) as [[report g]|] eqn:E;
    [|reflexivity].
  now rewrite (int_year g (FILENAME_RE_match_year _ _ _ E)).
Qed.

Lemma parse_season_iff filename report (season : Z) :
  parse_season_from_filename filename = Returns (Some (report, season)) <->
  exists y1 y2 tail,
    (report = "regular" \/ report = "playoffs") /\
    is_year y1 = true /\ is_year y2 = true /\
    (tail = EmptyString \/ tail = line_feed) /\
    filename = (report ++ "-" ++ y1 ++ "-" ++ y2 ++ ".csv" ++ tail)%string /\
    season = Py.digits_value 0 y1.
Proof.
  rewrite parse_season_match. split.
  - destruct (FILENAME_RE_match filename) as [[r g]|] eqn:E; [|discriminate].
    intros [= -> <-].
    apply FILENAME_RE_match_iff in E as (y & tail & Hrep & Hg & Hy & Ht & ->).
    exists g, y, tail. auto 10.
  - intros (y1 & y2 & tail & Hrep & H1 & H2 & Ht & Hn & ->).
    assert (E : FILENAME_RE_match filename = Some (report, y1)).
    { apply FILENAME_RE_match_iff. exists y2, tail. auto. }
    now rewrite E.
Qed.

End CsvNames.

(** C10, as the code has it.  [parse_season_from_filename] returns the
    report kind and the first year exactly for the names
    [<report>-<year>-<year>.csv], report ["regular"] or ["playoffs"] and
    each year four digits, and for such a name followed by one line feed;
    for every other name it returns [None], and it never raises.  For a
    name that ends in [.csv] the line feed cannot occur: there the pair is
    returned exactly when the whole name has the form. *)
Theorem parse_season_from_filename_whole_name (filename : string) :
  (forall report season,
     parse_season_from_filename filename = Returns (Some (report, season))
     <->
     exists y1 y2 tail,
       (report = "regular" \/ report = "playoffs") /\
       is_year y1 = true /\ is_year y2 = true /\
       (tail = EmptyString \/ tail = line_feed) /\
       filename
       = (report ++ "-" ++ y1 ++ "-" ++ y2 ++ ".csv" ++ tail)%string /\
       season = Py.digits_value 0 y1) /\
  (parse_season_from_filename filename = Returns None \/
   exists report season,
     parse_season_from_filename filename
     = Returns (Some (report, season))) /\
  (forall stem, filename = (stem ++ ".csv")%string ->
   forall report season,
     parse_season_from_filename filename = Returns (Some (report, season))
     <->
     exists y1 y2,
       (report = "regular" \/ report = "playoffs") /\
       is_year y1 = true /\ is_year y2 = true /\
       filename = (report ++ "-" ++ y1 ++ "-" ++ y2 ++ ".csv")%string /\
       season = Py.digits_value 0 y1).
Proof.
  split; [intros report season; apply parse_season_iff|]. split.
  - rewrite parse_season_match.
    destruct (FILENAME_RE_match filename) as [[r g]|]; [right; eauto|now left].
  - intros stem Hstem report season. rewrite parse_season_iff. split.
    + intros (y1 & y2 & tail & Hrep & H1 & H2 & Ht & Hn & Hs).
      assert (tail = EmptyString) as ->.
      { apply (csv_name_no_tail stem report y1 y2 tail); [congruence|exact Ht]. }
      exists y1, y2. auto 10.
    + intros (y1 & y2 & Hrep & H1 & H2 & Hn & Hs).
      exists y1, y2, EmptyString. auto 10.
Qed.

(** X16.  On a file whose name ends in [.csv], as every name that
    [glob("*.csv")] yields does, an iteration of the loop of [main] either
    checks the file or leaves the tally as it was; it checks it exactly
    when the whole name is [<report>-<year>-<year>.csv] with the first
    year between 2012 and 2024.  The second year is not looked at. *)
Theorem main_step_checked_names
    (t : tally) (stem : string) (rows : list row) :
  exists t',
    main_step t (stem ++ ".csv")%string rows = Returns t' /\
    (checked t' = checked t + 1 \/ t' = t) /\
    (checked t' = checked t + 1 <->
     exists report y1 y2,
       (report = "regular" \/ report = "playoffs") /\
       is_year y1 = true /\ is_year y2 = true /\
       (stem ++ ".csv")%string
       = (report ++ "-" ++ y1 ++ "-" ++ y2 ++ ".csv")%string /\
       (2012 <= Py.digits_value 0 y1 <= 2024)%Z).
Proof.
  eexists. split; [apply main_step_returns|].
  assert (Hc : candidate (stem ++ ".csv")%string = true <->
               exists report y1 y2,
                 (report = "regular" \/ report = "playoffs") /\
                 is_year y1 = true /\ is_year y2 = true /\
                 (stem ++ ".csv")%string
                 = (report ++ "-" ++ y1 ++ "-" ++ y2 ++ ".csv")%string /\
                 (2012 <= Py.digits_value 0 y1 <= 2024)%Z).
  { rewrite candidate_names. split.
    - intros (report & y1 & y2 & tail & Hrep & H1 & H2 & Ht & Hn & Hr).
      assert (tail = EmptyString) as ->
        by (now apply (csv_name_no_tail stem report y1 y2 tail)).
      exists report, y1, y2. auto 10.
    - intros (report & y1 & y2 & Hrep & H1 & H2 & Hn & Hr).
      exists report, y1, y2, EmptyString. auto 10. }
  rewrite <- Hc.
  destruct (candidate (stem ++ ".csv")%string).
  - destruct (swapped_any _); simpl; (split; [now left|]); tauto.
  - split; [now right|]. split; [lia|discriminate].
Qed.
